(** * sverchok-extra: the RBF curve node and the attractor field node

    A shallow embedding of [nodes/curve/rbf_curve.py] and
    [nodes/field/attractor_field.py].  Python floats are read as real
    numbers, Python lists as lists, exceptions as the [Raise] branch of a
    result type.  Objects built by the nodes (fields, curves, the kd-tree,
    the RBF interpolant, the falloff function) are records and constructors
    holding the arguments they were built with. *)

From Stdlib Require Import Reals Lra Lia List String Bool ZArith.
Import ListNotations.
Set Warnings "-register-all".
Local Open Scope R_scope.
Local Open Scope string_scope.

(** ** Exceptions *)

Inductive exn : Type :=
| IndexError
| TypeError
| NameError
| ValueError
| RuntimeError
| Exception (msg : string).

Inductive result (A : Type) : Type :=
| Ok (a : A)
| Raise (e : exn).

Arguments Ok {A} a.
Arguments Raise {A} e.

Definition bind {A B : Type} (c : result A) (k : A -> result B) : result B :=
  match c with
  | Ok a => k a
  | Raise e => Raise e
  end.

Notation "x <- c ;; k" := (bind c (fun x => k))
  (at level 61, c at next level, right associativity).

(** ** Data shared by the two nodes *)

(** A vertex: a triple of floats. *)
Definition point : Type := (R * R * R)%type.

(** What a numeric socket hands over for one object: a float, an int, a
    list of numbers or a tuple of numbers. *)
Inductive socket_item : Type :=
| Float (x : R)
| Int (n : Z)
| Items (l : list R)
| Tuple (t : list R).

(** [l[0]] *)
Definition index0 {A : Type} (l : list A) : result A :=
  match l with
  | [] => Raise IndexError
  | x :: _ => Ok x
  end.

(** An output socket: whether it is linked, and the data last set on it. *)
Record out_socket (A : Type) : Type := mk_out_socket {
  is_linked : bool;
  sv_data : option (list A)
}.

Arguments mk_out_socket {A}.
Arguments is_linked {A}.
Arguments sv_data {A}.

Definition sv_set {A : Type} (s : out_socket A) (d : list A) : out_socket A :=
  {| is_linked := is_linked s; sv_data := Some d |}.

(** ** The host's [zip_long_repeat]

    The nodes are modelled for any behaviour of [zip_long_repeat]; the
    functions below are one behaviour, used to run the nodes on concrete
    inputs: the lists are zipped up to the length of the longest, a shorter
    list repeating its last item, and an empty list giving no tuple. *)

Module Host.

Definition repeat_last {A : Type} (n : nat) (l : list A) : list A :=
  match l with
  | [] => []
  | x :: _ => firstn n l ++ repeat (last l x) (n - List.length l)
  end.

Definition zip_long_repeat3 {A B C : Type}
    (a : list A) (b : list B) (c : list C) : list (A * B * C) :=
  let n := Nat.max (List.length a) (Nat.max (List.length b) (List.length c)) in
  combine (combine (repeat_last n a) (repeat_last n b)) (repeat_last n c).

Definition zip_long_repeat4 {A B C D : Type}
    (a : list A) (b : list B) (c : list C) (d : list D) : list (A * B * C * D) :=
  let n := Nat.max (Nat.max (List.length a) (List.length b))
                   (Nat.max (List.length c) (List.length d)) in
  combine (combine (combine (repeat_last n a) (repeat_last n b))
                   (repeat_last n c)) (repeat_last n d).

End Host.

(** ** The curve node, [nodes/curve/rbf_curve.py] *)

Module Curve.

(** [np.linalg.norm] of the difference of two vertices. *)
Definition distance (p q : point) : R :=
  let '(x1, y1, z1) := p in
  let '(x2, y2, z2) := q in
  sqrt ((x1 - x2) * (x1 - x2) + (y1 - y2) * (y1 - y2) + (z1 - z2) * (z1 - z2)).

(** The running sums of the distances between consecutive vertices,
    [acc] being the sum reached at [prev]. *)
Fixpoint arc_lengths (acc : R) (prev : point) (rest : list point) : list R :=
  match rest with
  | [] => []
  | q :: rest' =>
      let acc' := acc + distance prev q in
      acc' :: arc_lengths acc' q rest'
  end.

Definition cumulative_distances (pts : list point) : list R :=
  match pts with
  | [] => []
  | p :: rest => 0 :: arc_lengths 0 p rest
  end.

(** Modelled from the spec: [make_euclidian_ts] is imported from
    [sverchok.utils.curve] and its body is not among the sources.  The spec
    (4.1) has it compute "a monotonically increasing parameter value per
    point equal to cumulative Euclidean distance from the first point,
    normalized or left raw"; [normalize] selects between the two, the
    normalized values being the raw ones divided by the last of them. *)
Definition make_euclidian_ts (normalize : bool) (pts : list point) : list R :=
  let ts := cumulative_distances pts in
  if normalize then map (fun t => t / last ts 0) ts else ts.

(** The length of the polyline through [pts]: what "cumulative Euclidean
    distance" means for the last vertex of [pts]. *)
Fixpoint path_length (pts : list point) : R :=
  match pts with
  | p :: (q :: _) as tl => distance p q + path_length tl
  | _ => 0
  end.

(** What reaches [Rbf] as [smooth] or [epsilon]: a number, or a tuple
    handed over whole. *)
Inductive rbf_arg : Type :=
| Number (x : R)
| Whole (t : list R).

(** [scipy.interpolate.Rbf(ts, vertices, function=..., smooth=...,
    epsilon=..., mode='N-D')]: the interpolant, as the arguments it was
    built from.  The linear solve is scipy's, and so are the exceptions it
    may raise; they are not modelled. *)
Record Rbf : Type := mk_Rbf {
  rbf_x : list R;
  rbf_d : list point;
  rbf_function : string;
  rbf_smooth : rbf_arg;
  rbf_epsilon : rbf_arg;
  rbf_mode : string
}.

(** [SvExRbfCurve(rbf, u_bounds)] *)
Record SvExRbfCurve : Type := mk_SvExRbfCurve {
  curve_rbf : Rbf;
  u_bounds : R * R
}.

(** The node: its [function] property, what [sv_get] returns on its three
    inputs (the vertices already through [ensure_nesting_level]), and its
    output socket. *)
Record SvExRbfCurveNode : Type := mk_node {
  function : string;
  Vertices : list (list point);
  Epsilon : list socket_item;
  Smooth : list socket_item;
  Curve : out_socket SvExRbfCurve
}.

(** [if isinstance(x, (list, int)): x = x[0]] : a list gives its first
    item, an int cannot be subscripted, a float and a tuple are left
    alone. *)
Definition first_if_list_or_int (x : socket_item) : result rbf_arg :=
  match x with
  | Float v => Ok (Number v)
  | Int _ => Raise TypeError
  | Items l => v <- index0 l ;; Ok (Number v)
  | Tuple t => Ok (Whole t)
  end.

Section Process.

(** [zip_long_repeat] is the host's ([sverchok.data_structure]); the node
    is modelled for whatever list of triples it returns. *)
Variable zip_long_repeat :
  list (list point) -> list socket_item -> list socket_item ->
  list (list point * socket_item * socket_item).

(** Whether the host's [make_euclidian_ts] normalizes. *)
Variable normalize : bool.

(** The body of the loop of [process]. *)
Definition process_object (self : SvExRbfCurveNode)
    (obj : list point * socket_item * socket_item) : result SvExRbfCurve :=
  let '(vertices, epsilon, smooth) := obj in
  epsilon <- first_if_list_or_int epsilon ;;
  smooth <- first_if_list_or_int smooth ;;
  let ts := make_euclidian_ts normalize vertices in
  let rbf := mk_Rbf ts vertices (function self) smooth epsilon "N-D" in
  let curve := mk_SvExRbfCurve rbf (0, 1) in
  Ok curve.

Fixpoint process_loop (self : SvExRbfCurveNode)
    (objects : list (list point * socket_item * socket_item))
    (curves_out : list SvExRbfCurve) : result (list SvExRbfCurve) :=
  match objects with
  | [] => Ok curves_out
  | obj :: rest =>
      curve <- process_object self obj ;;
      process_loop self rest (curves_out ++ [curve])
  end.

Definition set_Curve (self : SvExRbfCurveNode) (curves : list SvExRbfCurve)
  : SvExRbfCurveNode :=
  {| function := function self;
     Vertices := Vertices self;
     Epsilon := Epsilon self;
     Smooth := Smooth self;
     Curve := sv_set (Curve self) curves |}.

Definition process (self : SvExRbfCurveNode) : result SvExRbfCurveNode :=
  if negb (is_linked (Curve self)) then Ok self
  else
    curves_out <-
      process_loop self
        (zip_long_repeat (Vertices self) (Epsilon self) (Smooth self)) [] ;;
    Ok (set_Curve self curves_out).

End Process.

(** *** Module level: the guard on scipy and registration *)

(** [sverchok_extra.dependencies.scipy] is the module or [None]; only the
    distinction matters. *)
Definition dependency : Type := option unit.

(** The names the module body binds when it is executed. *)
Definition module_namespace (scipy : dependency) : list string :=
  match scipy with
  | Some _ => ["Rbf"; "SvExRbfCurveNode"; "register"; "unregister"]
  | None => ["register"; "unregister"]
  end.

Definition defined (name : string) (ns : list string) : bool :=
  existsb (String.eqb name) ns.

(** Looking a global name up, as the body of [register] does. *)
Definition global (ns : list string) (name : string) : result string :=
  if defined name ns then Ok name else Raise NameError.

(** [bpy.utils.register_class] and [unregister_class] on the host's list
    of registered classes: registering a class that is registered already
    raises ValueError, unregistering one that is not raises RuntimeError. *)
Definition register_class (cls : string) (registry : list string)
  : result (list string) :=
  if in_dec string_dec cls registry then Raise ValueError
  else Ok (cls :: registry).

Definition unregister_class (cls : string) (registry : list string)
  : result (list string) :=
  if in_dec string_dec cls registry then Ok (remove string_dec cls registry)
  else Raise RuntimeError.

Definition register (scipy : dependency) (registry : list string)
  : result (list string) :=
  match scipy with
  | Some _ =>
      cls <- global (module_namespace scipy) "SvExRbfCurveNode" ;;
      register_class cls registry
  | None => Ok registry
  end.

Definition unregister (scipy : dependency) (registry : list string)
  : result (list string) :=
  match scipy with
  | Some _ =>
      cls <- global (module_namespace scipy) "SvExRbfCurveNode" ;;
      unregister_class cls registry
  | None => Ok registry
  end.

(** The node with other data left on its output by an earlier run. *)
Definition with_output_data (self : SvExRbfCurveNode)
    (data : option (list SvExRbfCurve)) : SvExRbfCurveNode :=
  {| function := function self;
     Vertices := Vertices self;
     Epsilon := Epsilon self;
     Smooth := Smooth self;
     Curve := {| is_linked := is_linked (Curve self); sv_data := data |} |}.

(** *** The layout and what the node can read *)

(** [draw_buttons]: the properties laid out, in order. *)
Definition draw_buttons (self : SvExRbfCurveNode) : list string :=
  ["function"].

(** Whether [first_if_list_or_int] can read the item: a float, a tuple or
    a non-empty list. *)
Definition readable (x : socket_item) : bool :=
  match x with
  | Float _ => true
  | Int _ => false
  | Items [] => false
  | Items (_ :: _) => true
  | Tuple _ => true
  end.

End Curve.

(** ** The attractor field node, [nodes/field/attractor_field.py] *)

Module Field.

(** The two falloff kernels besides 'NONE' (identifiers as in
    [update_type]). *)
Inductive kernel : Type :=
| inverse_exp
| gauss.

(** The [falloff_type] property: ['NONE'] or a kernel. *)
Inductive falloff_kind : Type :=
| NONE
| Shape (k : kernel).

(** The function [falloff(falloff_type, amplitude, coefficient, clamp)]
    returns.  [falloff] is defined in [sverchok_extra.utils], which is not
    among the sources: the function is held as the arguments of the call
    that built it, and nothing is said of the values it computes. *)
Record falloff_function : Type := mk_falloff_function {
  ff_kernel : kernel;
  ff_amplitude : R;
  ff_coefficient : R;
  ff_clamp : bool
}.

Definition falloff (k : kernel) (amplitude coefficient : R) (clamp : bool)
  : falloff_function :=
  mk_falloff_function k amplitude coefficient clamp.

(** [mathutils.kdtree.KDTree]: its size, the (vertex, index) pairs inserted
    so far, and whether [balance] was called after the last insertion. *)
Record KDTree : Type := mk_KDTree {
  kd_size : nat;
  kd_items : list (point * nat);
  kd_balanced : bool
}.

Definition KDTree_new (size : nat) : KDTree :=
  {| kd_size := size; kd_items := []; kd_balanced := false |}.

Definition kd_insert (kdt : KDTree) (co : point) (index : nat) : KDTree :=
  {| kd_size := kd_size kdt;
     kd_items := kd_items kdt ++ [(co, index)];
     kd_balanced := false |}.

Definition kd_balance (kdt : KDTree) : KDTree :=
  {| kd_size := kd_size kdt; kd_items := kd_items kdt; kd_balanced := true |}.

(** The field objects of [sverchok_extra.data], as the constructor calls
    of the node. *)
Inductive scalar_field : Type :=
| SvExScalarFieldPointDistance (center : point) (falloff : option falloff_function)
| SvExMergedScalarField (mode : string) (fields : list scalar_field)
| SvExKdtScalarField (kdt : KDTree) (falloff : option falloff_function)
| SvExLineAttractorScalarField (center direction : point) (falloff : option falloff_function)
| SvExPlaneAttractorScalarField (center direction : point) (falloff : option falloff_function).

Inductive vector_field : Type :=
| SvExVectorFieldPointDistance (center : point) (falloff : option falloff_function)
| SvExAverageVectorField (fields : list vector_field)
| SvExKdtVectorField (kdt : KDTree) (falloff : option falloff_function)
| SvExLineAttractorVectorField (center direction : point) (falloff : option falloff_function)
| SvExPlaneAttractorVectorField (center direction : point) (falloff : option falloff_function).

(** The node: its properties, what [sv_get] returns on its four inputs, and
    its two output sockets.  The enum properties [attractor_type] and
    [point_mode] are held as their string identifiers; on a node of the
    host [attractor_type] is one of the items 'Point', 'Line', 'Plane'
    ([valid_attractor_type] below) and [point_mode] one of 'AVG', 'MIN'. *)
Record SvExAttractorFieldNode : Type := mk_node {
  falloff_type : falloff_kind;
  clamp : bool;
  attractor_type : string;
  point_mode : string;
  Center : list (list point);
  Direction : list (list point);
  Amplitude : list socket_item;
  Coefficient : list socket_item;
  VField : out_socket vector_field;
  SField : out_socket scalar_field
}.

(** [enumerate(centers)] *)
Definition enumerate {A : Type} (l : list A) : list (nat * A) :=
  combine (seq 0 (List.length l)) l.

(** The first branch is the one for [n == 1], where [centers[0]] is the
    only center. *)
Definition to_point (self : SvExAttractorFieldNode) (centers : list point)
    (falloff : option falloff_function) : vector_field * scalar_field :=
  let n := List.length centers in
  match centers with
  | [center0] =>
      let sfield := SvExScalarFieldPointDistance center0 falloff in
      let vfield := SvExVectorFieldPointDistance center0 falloff in
      (vfield, sfield)
  | _ =>
      if point_mode self =? "AVG" then
        let sfields := map (fun center => SvExScalarFieldPointDistance center falloff) centers in
        let sfield := SvExMergedScalarField "AVG" sfields in
        let vfields := map (fun center => SvExVectorFieldPointDistance center falloff) centers in
        let vfield := SvExAverageVectorField vfields in
        (vfield, sfield)
      else
        let kdt := KDTree_new n in
        let kdt := fold_left (fun kdt iv => kd_insert kdt (snd iv) (fst iv))
                             (enumerate centers) kdt in
        let kdt := kd_balance kdt in
        let vfield := SvExKdtVectorField kdt falloff in
        let sfield := SvExKdtScalarField kdt falloff in
        (vfield, sfield)
  end.

Definition to_line (center direction : point) (falloff : option falloff_function)
  : vector_field * scalar_field :=
  let sfield := SvExLineAttractorScalarField center direction falloff in
  let vfield := SvExLineAttractorVectorField center direction falloff in
  (vfield, sfield).

Definition to_plane (center direction : point) (falloff : option falloff_function)
  : vector_field * scalar_field :=
  let sfield := SvExPlaneAttractorScalarField center direction falloff in
  let vfield := SvExPlaneAttractorVectorField center direction falloff in
  (vfield, sfield).

(** [if isinstance(x, (list, tuple)): x = x[0]] *)
Definition first_if_list_or_tuple (x : socket_item) : result R :=
  match x with
  | Float v => Ok v
  | Int n => Ok (IZR n)
  | Items l => index0 l
  | Tuple t => index0 t
  end.

(** The falloff function [process] builds for one object. *)
Definition falloff_func (self : SvExAttractorFieldNode)
    (amplitude coefficient : R) : option falloff_function :=
  match falloff_type self with
  | NONE => None
  | Shape k => Some (falloff k amplitude coefficient (clamp self))
  end.

Definition object : Type :=
  (list point * list point * socket_item * socket_item)%type.

(** The body of the loop of [process]. *)
Definition process_object (self : SvExAttractorFieldNode) (obj : object)
  : result (vector_field * scalar_field) :=
  let '(centers, direction, amplitude, coefficient) := obj in
  amplitude <- first_if_list_or_tuple amplitude ;;
  coefficient <- first_if_list_or_tuple coefficient ;;
  let falloff_func := falloff_func self amplitude coefficient in
  if attractor_type self =? "Point" then
    Ok (to_point self centers falloff_func)
  else if attractor_type self =? "Line" then
    center <- index0 centers ;;
    dir <- index0 direction ;;
    Ok (to_line center dir falloff_func)
  else if attractor_type self =? "Plane" then
    center <- index0 centers ;;
    dir <- index0 direction ;;
    Ok (to_plane center dir falloff_func)
  else
    Raise (Exception "not implemented yet").

Fixpoint process_loop (self : SvExAttractorFieldNode) (objects : list object)
    (vfields_out : list vector_field) (sfields_out : list scalar_field)
  : result (list vector_field * list scalar_field) :=
  match objects with
  | [] => Ok (vfields_out, sfields_out)
  | obj :: rest =>
      fields <- process_object self obj ;;
      process_loop self rest (vfields_out ++ [fst fields]) (sfields_out ++ [snd fields])
  end.

Definition set_outputs (self : SvExAttractorFieldNode)
    (vfields : list vector_field) (sfields : list scalar_field)
  : SvExAttractorFieldNode :=
  {| falloff_type := falloff_type self;
     clamp := clamp self;
     attractor_type := attractor_type self;
     point_mode := point_mode self;
     Center := Center self;
     Direction := Direction self;
     Amplitude := Amplitude self;
     Coefficient := Coefficient self;
     VField := sv_set (VField self) vfields;
     SField := sv_set (SField self) sfields |}.

Definition with_point_mode (self : SvExAttractorFieldNode) (mode : string)
  : SvExAttractorFieldNode :=
  {| falloff_type := falloff_type self;
     clamp := clamp self;
     attractor_type := attractor_type self;
     point_mode := mode;
     Center := Center self;
     Direction := Direction self;
     Amplitude := Amplitude self;
     Coefficient := Coefficient self;
     VField := VField self;
     SField := SField self |}.

Section Process.

(** [zip_long_repeat] is the host's ([sverchok.data_structure]); the node
    is modelled for whatever list of objects it returns. *)
Variable zip_long_repeat :
  list (list point) -> list (list point) -> list socket_item ->
  list socket_item -> list object.

Definition objects_of (self : SvExAttractorFieldNode) : list object :=
  zip_long_repeat (Center self) (Direction self) (Amplitude self) (Coefficient self).

Definition process (self : SvExAttractorFieldNode) : result SvExAttractorFieldNode :=
  if negb (is_linked (VField self) || is_linked (SField self)) then Ok self
  else
    out <- process_loop self (objects_of self) [] [] ;;
    Ok (set_outputs self (fst out) (snd out)).

(** What a run of [process] leaves on the two output sockets, or the
    exception it raised. *)
Definition emitted (r : result SvExAttractorFieldNode)
  : result (out_socket vector_field * out_socket scalar_field) :=
  match r with
  | Ok self' => Ok (VField self', SField self')
  | Raise e => Raise e
  end.

End Process.

(** Two objects with the same first center (if any), the same first
    direction (if any), the same amplitude and the same coefficient. *)
Definition same_first (o o' : object) : Prop :=
  let '(centers, direction, amplitude, coefficient) := o in
  let '(centers', direction', amplitude', coefficient') := o' in
  hd_error centers = hd_error centers' /\
  hd_error direction = hd_error direction' /\
  amplitude = amplitude' /\
  coefficient = coefficient'.

Definition centers_of (o : object) : list point := fst (fst (fst o)).

(** Whether [attractor_type] is one of the items of the property. *)
Definition valid_attractor_type (self : SvExAttractorFieldNode) : bool :=
  (attractor_type self =? "Point") || (attractor_type self =? "Line")
  || (attractor_type self =? "Plane").

(** The node with other data left on its outputs by an earlier run. *)
Definition with_output_data (self : SvExAttractorFieldNode)
    (vdata : option (list vector_field)) (sdata : option (list scalar_field))
  : SvExAttractorFieldNode :=
  {| falloff_type := falloff_type self;
     clamp := clamp self;
     attractor_type := attractor_type self;
     point_mode := point_mode self;
     Center := Center self;
     Direction := Direction self;
     Amplitude := Amplitude self;
     Coefficient := Coefficient self;
     VField := {| is_linked := is_linked (VField self); sv_data := vdata |};
     SField := {| is_linked := is_linked (SField self); sv_data := sdata |} |}.

(** *** The layout of the node *)

(** [draw_buttons]: the properties laid out, in order. *)
Definition draw_buttons (self : SvExAttractorFieldNode) : list string :=
  ["attractor_type"]
  ++ (if attractor_type self =? "Point" then ["point_mode"] else [])
  ++ ["falloff_type"; "clamp"].

(** The identifier of the [falloff_type] property. *)
Definition falloff_type_id (kind : falloff_kind) : string :=
  match kind with
  | NONE => "NONE"
  | Shape inverse_exp => "inverse_exp"
  | Shape gauss => "gauss"
  end.

(** The [hide_safe] flags of the three input sockets [update_type] sets. *)
Record hidden_inputs : Type := mk_hidden_inputs {
  hide_Direction : bool;
  hide_Amplitude : bool;
  hide_Coefficient : bool
}.

Definition update_type (self : SvExAttractorFieldNode) : hidden_inputs :=
  {| hide_Direction := attractor_type self =? "Point";
     hide_Amplitude := negb (falloff_type_id (falloff_type self) =? "NONE");
     hide_Coefficient :=
       negb (existsb (String.eqb (falloff_type_id (falloff_type self)))
                     ["NONE"; "inverse_exp"; "gauss"]) |}.

(** *** What the node can read *)

(** Whether [first_if_list_or_tuple] can read the item: anything but an
    empty list or an empty tuple. *)
Definition readable (x : socket_item) : bool :=
  match x with
  | Items [] => false
  | Tuple [] => false
  | _ => true
  end.

Definition nonempty {A : Type} (l : list A) : bool :=
  match l with
  | [] => false
  | _ :: _ => true
  end.

(** Two objects that differ at most in their directions. *)
Definition same_but_direction (o o' : object) : Prop :=
  let '(centers, _, amplitude, coefficient) := o in
  let '(centers', _, amplitude', coefficient') := o' in
  centers = centers' /\ amplitude = amplitude' /\ coefficient = coefficient'.

(** Two objects with the same geometry whose amplitudes are both readable
    or both not, and likewise their coefficients. *)
Definition same_but_values (o o' : object) : Prop :=
  let '(centers, direction, amplitude, coefficient) := o in
  let '(centers', direction', amplitude', coefficient') := o' in
  centers = centers' /\ direction = direction' /\
  readable amplitude = readable amplitude' /\
  readable coefficient = readable coefficient'.

End Field.

(** ** Sample inputs *)

Module Samples.

Definition vertices : list point := [(0, 0, 0); (3, 4, 0); (3, 4, 12)].

Definition curve_node : Curve.SvExRbfCurveNode :=
  {| Curve.function := "multiquadric";
     Curve.Vertices := [vertices];
     Curve.Epsilon := [Items [1]];
     Curve.Smooth := [Items [0]];
     Curve.Curve := {| is_linked := true; sv_data := None |} |}.

(** A node with the default amplitude and coefficient, both outputs linked
    or both unlinked. *)
Definition field_node (falloff_type : Field.falloff_kind) (clamp : bool)
    (attractor_type point_mode : string) (centers : list (list point))
    (linked : bool) : Field.SvExAttractorFieldNode :=
  {| Field.falloff_type := falloff_type;
     Field.clamp := clamp;
     Field.attractor_type := attractor_type;
     Field.point_mode := point_mode;
     Field.Center := centers;
     Field.Direction := [[(0, 0, 1)]];
     Field.Amplitude := [Items [1 / 2]];
     Field.Coefficient := [Items [1 / 2]];
     Field.VField := {| is_linked := linked; sv_data := None |};
     Field.SField := {| is_linked := linked; sv_data := None |} |}.

(** A field node with given inputs on all four sockets, both outputs
    linked. *)
Definition field_node_with (falloff_type : Field.falloff_kind)
    (attractor_type : string) (centers directions : list (list point))
    (amplitudes coefficients : list socket_item) : Field.SvExAttractorFieldNode :=
  {| Field.falloff_type := falloff_type;
     Field.clamp := false;
     Field.attractor_type := attractor_type;
     Field.point_mode := "AVG";
     Field.Center := centers;
     Field.Direction := directions;
     Field.Amplitude := amplitudes;
     Field.Coefficient := coefficients;
     Field.VField := {| is_linked := true; sv_data := None |};
     Field.SField := {| is_linked := true; sv_data := None |} |}.

(** A curve node with given epsilon items. *)
Definition curve_node_with (epsilons : list socket_item)
  : Curve.SvExRbfCurveNode :=
  {| Curve.function := "multiquadric";
     Curve.Vertices := [vertices];
     Curve.Epsilon := epsilons;
     Curve.Smooth := [Items [0]];
     Curve.Curve := {| is_linked := true; sv_data := None |} |}.

(** A line attractor over one object with two centers. *)
Definition line_node : Field.SvExAttractorFieldNode :=
  field_node Field.NONE false "Line" "AVG" [[(0, 0, 0); (5, 5, 5)]] true.

(** A line attractor over two objects, the second without any center. *)
Definition failing_line_node : Field.SvExAttractorFieldNode :=
  field_node_with Field.NONE "Line" [[(0, 0, 0)]; []] [[(0, 0, 1)]]
                  [Items [1 / 2]] [Items [1 / 2]].

(** Point attractors over one object with one center, with different
    directions, amplitudes and coefficients. *)
Definition point_node : Field.SvExAttractorFieldNode :=
  field_node_with Field.NONE "Point" [[(1, 2, 3)]] [[(0, 0, 1)]]
                  [Items [1 / 2]] [Items [1 / 2]].

Definition point_node_other_direction : Field.SvExAttractorFieldNode :=
  field_node_with Field.NONE "Point" [[(1, 2, 3)]] [[(1, 0, 0); (0, 1, 0)]]
                  [Items [1 / 2]] [Items [1 / 2]].

Definition point_node_other_values : Field.SvExAttractorFieldNode :=
  field_node_with Field.NONE "Point" [[(1, 2, 3)]] [[(0, 0, 1)]]
                  [Float 7] [Int 3].

End Samples.

(** * Properties *)

(** ** The parametrization of the curve node *)

Section ArcLength.

Import Curve.

Lemma distance_nonneg : forall p q : point, 0 <= distance p q.
Proof.
  intros [[x1 y1] z1] [[x2 y2] z2]. unfold distance. apply sqrt_pos.
Qed.

Lemma arc_lengths_length :
  forall rest acc prev, List.length (arc_lengths acc prev rest) = List.length rest.
Proof.
  induction rest as [|q rest IH]; intros acc prev; simpl.
  - reflexivity.
  - now rewrite IH.
Qed.

(** The running sums never go down, starting from the sum reached so far. *)
Lemma arc_lengths_step :
  forall rest acc prev i,
    (S i < List.length (acc :: arc_lengths acc prev rest))%nat ->
    nth i (acc :: arc_lengths acc prev rest) 0
    <= nth (S i) (acc :: arc_lengths acc prev rest) 0.
Proof.
  induction rest as [|q rest IH]; intros acc prev i Hi.
  - simpl in Hi. lia.
  - destruct i as [|i].
    + simpl. pose proof (distance_nonneg prev q). lra.
    + change (nth i (arc_lengths acc prev (q :: rest)) 0
              <= nth (S i) (arc_lengths acc prev (q :: rest)) 0).
      simpl arc_lengths. apply IH. simpl in Hi |- *. lia.
Qed.

Lemma arc_lengths_lower_bound :
  forall rest acc prev, Forall (Rle acc) (acc :: arc_lengths acc prev rest).
Proof.
  induction rest as [|q rest IH]; intros acc prev.
  - constructor; [lra | constructor].
  - constructor; [lra|]. simpl.
    specialize (IH (acc + distance prev q) q).
    pose proof (distance_nonneg prev q) as Hd.
    eapply Forall_impl; [|exact IH]. intros a Ha. simpl in Ha. lra.
Qed.

(** The i-th running sum is the length of the polyline up to vertex i. *)
Lemma arc_lengths_path_length :
  forall rest acc prev i,
    (i <= List.length rest)%nat ->
    nth i (acc :: arc_lengths acc prev rest) 0
    = acc + path_length (firstn (S i) (prev :: rest)).
Proof.
  induction rest as [|q rest IH]; intros acc prev i Hi.
  - simpl in Hi. assert (i = 0)%nat by lia. subst i. simpl. lra.
  - destruct i as [|i].
    + simpl. lra.
    + change (nth (S i) (acc :: arc_lengths acc prev (q :: rest)) 0)
        with (nth i (acc + distance prev q
                     :: arc_lengths (acc + distance prev q) q rest) 0).
      rewrite IH by (simpl in Hi; lia).
      change (firstn (S (S i)) (prev :: q :: rest))
        with (prev :: firstn (S i) (q :: rest)).
      change (firstn (S i) (q :: rest)) with (q :: firstn i rest).
      simpl path_length. lra.
Qed.

Lemma last_nonneg : forall l : list R, Forall (Rle 0) l -> 0 <= last l 0.
Proof.
  induction l as [|a l IH]; intros H.
  - simpl. lra.
  - inversion H as [|a' l' Ha Hl]; subst. destruct l as [|b l].
    + simpl. exact Ha.
    + change (last (a :: b :: l) 0) with (last (b :: l) 0). apply IH, Hl.
Qed.

Lemma last_nth : forall (l : list R) d, last l d = nth (List.length l - 1) l d.
Proof.
  induction l as [|a l IH]; intros d.
  - reflexivity.
  - destruct l as [|b l].
    + reflexivity.
    + change (last (a :: b :: l) d) with (last (b :: l) d). rewrite IH.
      simpl. now rewrite Nat.sub_0_r.
Qed.

Lemma nth_map_div :
  forall (l : list R) c i, nth i (map (fun t => t / c) l) 0 = nth i l 0 / c.
Proof.
  induction l as [|a l IH]; intros c i.
  - destruct i; simpl; unfold Rdiv; ring.
  - destruct i; simpl; [reflexivity | apply IH].
Qed.

Lemma div_le_nonneg : forall a b c, a <= b -> 0 <= c -> a / c <= b / c.
Proof.
  intros a b c Hab Hc. unfold Rdiv.
  destruct (Req_dec c 0) as [->|Hne].
  - rewrite Rinv_0. lra.
  - apply Rmult_le_compat_r; [|exact Hab].
    left. apply Rinv_0_lt_compat. lra.
Qed.

Lemma cumulative_distances_length :
  forall pts, List.length (cumulative_distances pts) = List.length pts.
Proof.
  intros [|p rest]; simpl; [reflexivity|]. now rewrite arc_lengths_length.
Qed.

Lemma cumulative_distances_nonneg :
  forall pts, Forall (Rle 0) (cumulative_distances pts).
Proof.
  intros [|p rest]; simpl; [constructor|]. apply arc_lengths_lower_bound.
Qed.

Lemma cumulative_distances_step :
  forall pts i,
    (S i < List.length pts)%nat ->
    nth i (cumulative_distances pts) 0 <= nth (S i) (cumulative_distances pts) 0.
Proof.
  intros [|p rest] i Hi; [simpl in Hi; lia|].
  unfold cumulative_distances. apply arc_lengths_step.
  simpl in *. rewrite arc_lengths_length. lia.
Qed.

Lemma cumulative_distances_path_length :
  forall pts i,
    (i < List.length pts)%nat ->
    nth i (cumulative_distances pts) 0 = path_length (firstn (S i) pts).
Proof.
  intros [|p rest] i Hi; [simpl in Hi; lia|].
  unfold cumulative_distances. rewrite arc_lengths_path_length.
  - lra.
  - simpl in Hi. lia.
Qed.

Lemma cumulative_distances_last :
  forall pts, last (cumulative_distances pts) 0 = path_length pts.
Proof.
  intros pts. destruct pts as [|p rest] eqn:E; [reflexivity|]. rewrite <- E.
  rewrite last_nth, cumulative_distances_length.
  rewrite cumulative_distances_path_length by (subst; simpl; lia).
  replace (S (List.length pts - 1)) with (List.length pts) by (subst; simpl; lia).
  now rewrite firstn_all.
Qed.

Lemma make_euclidian_ts_length :
  forall normalize pts,
    List.length (make_euclidian_ts normalize pts) = List.length pts.
Proof.
  intros [|] pts; unfold make_euclidian_ts.
  - rewrite length_map. apply cumulative_distances_length.
  - apply cumulative_distances_length.
Qed.

Lemma make_euclidian_ts_step :
  forall normalize pts i,
    (S i < List.length pts)%nat ->
    nth i (make_euclidian_ts normalize pts) 0
    <= nth (S i) (make_euclidian_ts normalize pts) 0.
Proof.
  intros [|] pts i Hi; unfold make_euclidian_ts.
  - rewrite !nth_map_div. apply div_le_nonneg.
    + now apply cumulative_distances_step.
    + apply last_nonneg, cumulative_distances_nonneg.
  - now apply cumulative_distances_step.
Qed.

(** C2: for a sequence of at least two vertices, [make_euclidian_ts] gives
    one parameter value per vertex; the value of vertex [i] is the
    cumulative Euclidean distance from the first vertex, that is the length
    of the polyline through vertices 0..i, left raw or divided by the length
    of the whole polyline; and the values increase monotonically (each is at
    least the one before it). *)
Theorem make_euclidian_ts_cumulative_distance :
  forall (normalize : bool) (pts : list point),
    (2 <= List.length pts)%nat ->
    List.length (make_euclidian_ts normalize pts) = List.length pts /\
    (forall i, (i < List.length pts)%nat ->
       nth i (make_euclidian_ts normalize pts) 0 =
       if normalize
       then path_length (firstn (S i) pts) / path_length pts
       else path_length (firstn (S i) pts)) /\
    (forall i, (S i < List.length pts)%nat ->
       nth i (make_euclidian_ts normalize pts) 0
       <= nth (S i) (make_euclidian_ts normalize pts) 0).
Proof.
  intros normalize pts _. split; [|split].
  - apply make_euclidian_ts_length.
  - intros i Hi. destruct normalize; unfold make_euclidian_ts.
    + rewrite nth_map_div, cumulative_distances_last.
      now rewrite cumulative_distances_path_length.
    + now apply cumulative_distances_path_length.
  - intros i Hi. now apply make_euclidian_ts_step.
Qed.

(** C3: for a sequence of at least two vertices the parametrization is
    non-decreasing: each vertex's parameter value is greater than or equal
    to the previous vertex's. *)
Theorem make_euclidian_ts_nondecreasing :
  forall (normalize : bool) (pts : list point),
    (2 <= List.length pts)%nat ->
    forall i, (1 <= i < List.length pts)%nat ->
      nth i (make_euclidian_ts normalize pts) 0
      >= nth (i - 1) (make_euclidian_ts normalize pts) 0.
Proof.
  intros normalize pts _ i Hi. destruct i as [|i]; [lia|].
  simpl. rewrite Nat.sub_0_r. apply Rle_ge, make_euclidian_ts_step. lia.
Qed.

End ArcLength.

Lemma make_euclidian_ts_cumulative_distance_witness :
  (2 <= List.length Samples.vertices)%nat /\
  (List.length (Curve.make_euclidian_ts true Samples.vertices)
   = List.length Samples.vertices /\
   (forall i, (i < List.length Samples.vertices)%nat ->
      nth i (Curve.make_euclidian_ts true Samples.vertices) 0 =
      Curve.path_length (firstn (S i) Samples.vertices)
      / Curve.path_length Samples.vertices) /\
   (forall i, (S i < List.length Samples.vertices)%nat ->
      nth i (Curve.make_euclidian_ts true Samples.vertices) 0
      <= nth (S i) (Curve.make_euclidian_ts true Samples.vertices) 0)).
Proof.
  split.
  - simpl. lia.
  - apply (make_euclidian_ts_cumulative_distance true Samples.vertices).
    simpl. lia.
Defined.

Lemma make_euclidian_ts_nondecreasing_witness :
  (2 <= List.length Samples.vertices)%nat /\
  (1 <= 2 < List.length Samples.vertices)%nat /\
  nth 2 (Curve.make_euclidian_ts false Samples.vertices) 0
  >= nth (2 - 1) (Curve.make_euclidian_ts false Samples.vertices) 0.
Proof.
  split; [simpl; lia|]. split; [simpl; lia|].
  apply (make_euclidian_ts_nondecreasing false Samples.vertices);
    simpl; lia.
Defined.

(** On the sample vertices the raw parameter values are 0, 5 and 17. *)
Example make_euclidian_ts_sample :
  Curve.make_euclidian_ts false Samples.vertices = [0; 5; 17].
Proof.
  unfold Curve.make_euclidian_ts, Samples.vertices. simpl.
  replace ((0 - 3) * (0 - 3) + (0 - 4) * (0 - 4) + (0 - 0) * (0 - 0))
    with (5 * 5) by ring.
  replace ((3 - 3) * (3 - 3) + (4 - 4) * (4 - 4) + (0 - 12) * (0 - 12))
    with (12 * 12) by ring.
  rewrite !sqrt_square by lra.
  repeat f_equal; ring.
Qed.

(** Two vertices at the same place get the same parameter value: the
    increase is not strict. *)
Example make_euclidian_ts_repeated_vertex :
  forall p : point, Curve.make_euclidian_ts false [p; p] = [0; 0].
Proof.
  intros [[x y] z]. unfold Curve.make_euclidian_ts. simpl.
  replace ((x - x) * (x - x) + (y - y) * (y - y) + (z - z) * (z - z))
    with 0 by ring.
  rewrite sqrt_0. repeat f_equal; ring.
Qed.

(** Where two consecutive vertices differ the raw parameter value goes up
    strictly. *)
Lemma distance_pos : forall p q : point, p <> q -> 0 < Curve.distance p q.
Proof.
  intros [[x1 y1] z1] [[x2 y2] z2] Hne. unfold Curve.distance.
  apply sqrt_lt_R0.
  destruct (Rlt_le_dec 0 ((x1 - x2) * (x1 - x2) + (y1 - y2) * (y1 - y2)
                          + (z1 - z2) * (z1 - z2))) as [Hpos | Hle];
    [exact Hpos|].
  exfalso. apply Hne.
  pose proof (Rle_0_sqr (x1 - x2)) as Hx.
  pose proof (Rle_0_sqr (y1 - y2)) as Hy.
  pose proof (Rle_0_sqr (z1 - z2)) as Hz.
  unfold Rsqr in Hx, Hy, Hz.
  assert (Hx0 : (x1 - x2) * (x1 - x2) = 0) by lra.
  assert (Hy0 : (y1 - y2) * (y1 - y2) = 0) by lra.
  assert (Hz0 : (z1 - z2) * (z1 - z2) = 0) by lra.
  apply Rmult_integral in Hx0, Hy0, Hz0.
  assert (x1 = x2) by (destruct Hx0; lra).
  assert (y1 = y2) by (destruct Hy0; lra).
  assert (z1 = z2) by (destruct Hz0; lra).
  now subst.
Qed.

Lemma arc_lengths_strict_step :
  forall rest acc prev i d,
    (S i < List.length (prev :: rest))%nat ->
    nth i (prev :: rest) d <> nth (S i) (prev :: rest) d ->
    nth i (acc :: Curve.arc_lengths acc prev rest) 0
    < nth (S i) (acc :: Curve.arc_lengths acc prev rest) 0.
Proof.
  induction rest as [|q rest IH]; intros acc prev i d Hi Hne.
  - simpl in Hi. lia.
  - destruct i as [|i].
    + simpl in *. pose proof (distance_pos prev q Hne). lra.
    + change (nth i (Curve.arc_lengths acc prev (q :: rest)) 0
              < nth (S i) (Curve.arc_lengths acc prev (q :: rest)) 0).
      simpl Curve.arc_lengths. apply (IH _ q i d).
      * simpl in Hi |- *. lia.
      * exact Hne.
Qed.

Lemma make_euclidian_ts_strict_step :
  forall pts i d,
    (S i < List.length pts)%nat ->
    nth i pts d <> nth (S i) pts d ->
    nth i (Curve.make_euclidian_ts false pts) 0
    < nth (S i) (Curve.make_euclidian_ts false pts) 0.
Proof.
  intros [|p rest] i d Hi Hne; [simpl in Hi; lia|].
  unfold Curve.make_euclidian_ts, Curve.cumulative_distances.
  now apply (arc_lengths_strict_step rest 0 p i d).
Qed.

(** ** The curves of the curve node *)

Section CurveNode.

Import Curve.

Variable zip_long_repeat :
  list (list point) -> list socket_item -> list socket_item ->
  list (list point * socket_item * socket_item).
Variable normalize : bool.

Lemma process_object_bounds :
  forall self obj curve,
    process_object normalize self obj = Ok curve -> u_bounds curve = (0, 1).
Proof.
  intros self [[vertices epsilon] smooth] curve H. unfold process_object in H.
  destruct (first_if_list_or_int epsilon) as [e|]; simpl in H; [|discriminate].
  destruct (first_if_list_or_int smooth) as [s|]; simpl in H; [|discriminate].
  injection H as <-. reflexivity.
Qed.

(** The loop appends one curve per object to what it started from. *)
Lemma process_loop_bounds :
  forall self objects curves_out curves,
    process_loop normalize self objects curves_out = Ok curves ->
    Forall (fun c => u_bounds c = (0, 1)) curves_out ->
    Forall (fun c => u_bounds c = (0, 1)) curves /\
    List.length curves = (List.length curves_out + List.length objects)%nat.
Proof.
  intros self objects. induction objects as [|obj rest IH];
    intros curves_out curves H Hout; simpl in H.
  - injection H as <-. split; [exact Hout | simpl; lia].
  - destruct (process_object normalize self obj) as [curve|] eqn:E;
      simpl in H; [|discriminate].
    apply IH in H.
    + destruct H as [Hall Hlen]. split; [exact Hall|].
      rewrite Hlen, length_app. simpl. lia.
    + apply Forall_app. split; [exact Hout|].
      constructor; [|constructor]. eapply process_object_bounds, E.
Qed.

(** An object whose epsilon and smooth can be read reaches the call of
    [Rbf] with these arguments (what scipy may raise there is not
    modelled). *)
Lemma process_object_succeeds :
  forall self vertices epsilon smooth e s,
    first_if_list_or_int epsilon = Ok e ->
    first_if_list_or_int smooth = Ok s ->
    process_object normalize self (vertices, epsilon, smooth)
    = Ok (mk_SvExRbfCurve
            (mk_Rbf (make_euclidian_ts normalize vertices) vertices
                    (function self) s e "N-D")
            (0, 1)).
Proof.
  intros self vertices epsilon smooth e s He Hs. unfold process_object.
  rewrite He, Hs. reflexivity.
Qed.

(** C9: every curve the node puts on its output is built with the
    parameter domain (0.0, 1.0), one curve per input object, whatever the
    vertices, the kernel, the smooth and the epsilon values. *)
Theorem rbf_curve_domain :
  forall self self',
    is_linked (Curve self) = true ->
    process zip_long_repeat normalize self = Ok self' ->
    exists curves,
      sv_data (Curve self') = Some curves /\
      List.length curves
      = List.length (zip_long_repeat (Vertices self) (Epsilon self) (Smooth self)) /\
      Forall (fun c => u_bounds c = (0, 1)) curves.
Proof.
  intros self self' Hl H. unfold process in H. rewrite Hl in H. simpl in H.
  destruct (process_loop normalize self _ []) as [curves|] eqn:E;
    simpl in H; [|discriminate].
  injection H as <-. exists curves.
  apply process_loop_bounds in E; [|constructor].
  destruct E as [Hall Hlen]. simpl in Hlen. repeat split; assumption.
Qed.

End CurveNode.

Lemma rbf_curve_domain_witness :
  is_linked (Curve.Curve Samples.curve_node) = true /\
  exists self',
    Curve.process Host.zip_long_repeat3 true Samples.curve_node = Ok self' /\
    exists curves,
      sv_data (Curve.Curve self') = Some curves /\
      List.length curves = 1%nat /\
      Forall (fun c => Curve.u_bounds c = (0, 1)) curves.
Proof.
  split; [reflexivity|].
  eexists. split; [reflexivity|].
  apply (rbf_curve_domain Host.zip_long_repeat3 true Samples.curve_node);
    reflexivity.
Defined.

(** An int on the Epsilon socket stops the node: [epsilon[0]] is taken of
    an int. *)
Example process_int_epsilon :
  forall zip normalize self vertices smooth n rest,
    is_linked (Curve.Curve self) = true ->
    zip (Curve.Vertices self) (Curve.Epsilon self) (Curve.Smooth self)
    = (vertices, Int n, smooth) :: rest ->
    Curve.process zip normalize self = Raise TypeError.
Proof.
  intros zip normalize self vertices smooth n rest Hl Hz.
  unfold Curve.process. rewrite Hl, Hz. reflexivity.
Qed.

(** ** Registration of the curve node *)

(** C8: without scipy the node class is not defined and [register]
    leaves the host's registry as it was; with scipy the class is defined
    and [register], on a registry that does not hold the class yet, adds
    it.  In both cases [register] returns normally: it looks the class up
    under the same guard that defines it. *)
Theorem register_follows_scipy :
  forall (scipy : Curve.dependency) (registry : list string),
    ~ In "SvExRbfCurveNode" registry ->
    Curve.defined "SvExRbfCurveNode" (Curve.module_namespace scipy)
    = (match scipy with Some _ => true | None => false end) /\
    Curve.register scipy registry
    = Ok (match scipy with
          | Some _ => "SvExRbfCurveNode" :: registry
          | None => registry
          end).
Proof.
  intros [[]|] registry Hfresh; split; try reflexivity.
  unfold Curve.register. simpl. unfold Curve.register_class.
  destruct (in_dec string_dec "SvExRbfCurveNode" registry) as [Hin|_];
    [contradiction | reflexivity].
Qed.

Lemma register_follows_scipy_witness :
  ~ In "SvExRbfCurveNode" ["SvExAttractorFieldNode"] /\
  Curve.defined "SvExRbfCurveNode" (Curve.module_namespace (Some tt)) = true /\
  Curve.register (Some tt) ["SvExAttractorFieldNode"]
  = Ok ["SvExRbfCurveNode"; "SvExAttractorFieldNode"].
Proof.
  assert (H : ~ In "SvExRbfCurveNode" ["SvExAttractorFieldNode"]).
  { simpl. intros [H | []]. discriminate. }
  split; [exact H|].
  apply (register_follows_scipy (Some tt) ["SvExAttractorFieldNode"] H).
Defined.

(** Without scipy [register] and [unregister] do nothing, whatever the
    registry holds. *)
Lemma register_without_scipy :
  forall registry : list string,
    Curve.register None registry = Ok registry /\
    Curve.unregister None registry = Ok registry.
Proof. intros registry. split; reflexivity. Qed.

(** With scipy, registering on a registry that holds the class already is
    refused by the host. *)
Lemma register_twice :
  forall (scipy : Curve.dependency) (registry : list string),
    scipy <> None ->
    In "SvExRbfCurveNode" registry ->
    Curve.register scipy registry = Raise ValueError.
Proof.
  intros [[]|] registry Hs Hin; [|now elim Hs].
  unfold Curve.register. simpl. unfold Curve.register_class.
  destruct (in_dec string_dec "SvExRbfCurveNode" registry) as [_|Hnot];
    [reflexivity | contradiction].
Qed.

Lemma unregister_follows_scipy :
  forall (scipy : Curve.dependency) (registry : list string),
    In "SvExRbfCurveNode" registry ->
    Curve.unregister scipy registry
    = Ok (match scipy with
          | Some _ => remove string_dec "SvExRbfCurveNode" registry
          | None => registry
          end).
Proof.
  intros [[]|] registry Hin; [|reflexivity].
  unfold Curve.unregister. simpl. unfold Curve.unregister_class.
  destruct (in_dec string_dec "SvExRbfCurveNode" registry) as [_|Hnot];
    [reflexivity | contradiction].
Qed.

(** ** Point attractors *)

Section PointAttractors.

Import Field.

(** The insertion loop of the nearest mode keeps the size of the tree and
    adds the vertices in order, each under its index. *)
Lemma kd_insert_loop :
  forall (ivs : list (nat * point)) (kdt : KDTree),
    fold_left (fun kdt iv => kd_insert kdt (snd iv) (fst iv)) ivs kdt
    = {| kd_size := kd_size kdt;
         kd_items := kd_items kdt ++ map (fun iv => (snd iv, fst iv)) ivs;
         kd_balanced := match ivs with [] => kd_balanced kdt | _ => false end |}.
Proof.
  induction ivs as [|iv ivs IH]; intros kdt; simpl.
  - rewrite app_nil_r. now destruct kdt.
  - rewrite IH. simpl. rewrite <- app_assoc. simpl.
    f_equal. now destruct ivs.
Qed.

(** The tree of the nearest mode. *)
Lemma to_point_kdtree :
  forall centers,
    kd_balance
      (fold_left (fun kdt iv => kd_insert kdt (snd iv) (fst iv))
                 (enumerate centers) (KDTree_new (List.length centers)))
    = {| kd_size := List.length centers;
         kd_items := map (fun iv => (snd iv, fst iv)) (enumerate centers);
         kd_balanced := true |}.
Proof.
  intros centers. rewrite kd_insert_loop. reflexivity.
Qed.

Lemma enumerate_length :
  forall (A : Type) (l : list A), List.length (enumerate l) = List.length l.
Proof.
  intros A l. unfold enumerate. rewrite length_combine, length_seq.
  apply Nat.min_id.
Qed.

Lemma combine_seq_nth_error :
  forall (A : Type) (l : list A) start i x,
    nth_error l i = Some x ->
    nth_error (combine (seq start (List.length l)) l) i = Some ((start + i)%nat, x).
Proof.
  intros A l. induction l as [|a l IH]; intros start i x H.
  - destruct i; discriminate.
  - destruct i as [|i]; simpl in *.
    + injection H as <-. now rewrite Nat.add_0_r.
    + rewrite (IH (S start) i x H). f_equal. f_equal. lia.
Qed.

(** The i-th pair of [enumerate l] is (i, l[i]). *)
Lemma enumerate_nth_error :
  forall (A : Type) (l : list A) i x,
    nth_error l i = Some x -> nth_error (enumerate l) i = Some (i, x).
Proof.
  intros A l i x H. unfold enumerate.
  now rewrite (combine_seq_nth_error A l 0 i x H).
Qed.


(** With exactly one center [to_point] does not look at [point_mode]. *)
Lemma to_point_single_center :
  forall self center falloff,
    to_point self [center] falloff
    = (SvExVectorFieldPointDistance center falloff,
       SvExScalarFieldPointDistance center falloff).
Proof. reflexivity. Qed.

Lemma process_object_single_center :
  forall self mode mode' obj,
    attractor_type self = "Point" ->
    List.length (centers_of obj) = 1%nat ->
    process_object (with_point_mode self mode) obj
    = process_object (with_point_mode self mode') obj.
Proof.
  intros self mode mode' [[[centers direction] amplitude] coefficient] Ht Hn.
  unfold centers_of in Hn. simpl in Hn.
  destruct centers as [|c [|c' rest]]; simpl in Hn; try lia.
  unfold process_object. simpl attractor_type. rewrite Ht. simpl.
  reflexivity.
Qed.

Lemma process_loop_single_center :
  forall self mode mode' objects vfields sfields,
    attractor_type self = "Point" ->
    Forall (fun obj => List.length (centers_of obj) = 1%nat) objects ->
    process_loop (with_point_mode self mode) objects vfields sfields
    = process_loop (with_point_mode self mode') objects vfields sfields.
Proof.
  intros self mode mode' objects. induction objects as [|obj rest IH];
    intros vfields sfields Ht Hall; simpl.
  - reflexivity.
  - inversion Hall as [|o r Hobj Hrest]; subst.
    rewrite (process_object_single_center self mode mode' obj Ht Hobj).
    destruct (process_object (with_point_mode self mode') obj) as [fields|];
      simpl; [|reflexivity].
    now apply IH.
Qed.

Variable zip_long_repeat :
  list (list point) -> list (list point) -> list socket_item ->
  list socket_item -> list object.

(** C5: when every object of a Point attractor node has exactly one
    center, the node run with point mode 'MIN' and run with point mode
    'AVG' leaves the same vector fields and the same scalar fields on its
    outputs (or stops with the same exception). *)
Theorem single_point_modes_agree :
  forall self : SvExAttractorFieldNode,
    attractor_type self = "Point" ->
    Forall (fun obj => List.length (centers_of obj) = 1%nat)
           (objects_of zip_long_repeat self) ->
    emitted (process zip_long_repeat (with_point_mode self "MIN"))
    = emitted (process zip_long_repeat (with_point_mode self "AVG")).
Proof.
  intros self Ht Hall. unfold process, objects_of in *. simpl.
  destruct (negb (is_linked (VField self) || is_linked (SField self))).
  - reflexivity.
  - rewrite (process_loop_single_center self "MIN" "AVG" _ [] [] Ht Hall).
    destruct (process_loop (with_point_mode self "AVG") _ [] []) as [out|];
      reflexivity.
Qed.

End PointAttractors.


(** The same two centers in average mode. *)
Example to_point_average_sample :
  Field.to_point
    (Samples.field_node Field.NONE false "Point" "AVG" [[(0, 0, 0); (1, 0, 0)]] true)
    [(0, 0, 0); (1, 0, 0)] None
  = (Field.SvExAverageVectorField
       [Field.SvExVectorFieldPointDistance (0, 0, 0) None;
        Field.SvExVectorFieldPointDistance (1, 0, 0) None],
     Field.SvExMergedScalarField "AVG"
       [Field.SvExScalarFieldPointDistance (0, 0, 0) None;
        Field.SvExScalarFieldPointDistance (1, 0, 0) None]).
Proof. reflexivity. Qed.

Lemma single_point_modes_agree_witness :
  Field.attractor_type
    (Samples.field_node Field.NONE false "Point" "AVG" [[(1, 2, 3)]] true)
  = "Point" /\
  Forall (fun obj => List.length (Field.centers_of obj) = 1%nat)
    (Field.objects_of Host.zip_long_repeat4
       (Samples.field_node Field.NONE false "Point" "AVG" [[(1, 2, 3)]] true)) /\
  Field.emitted
    (Field.process Host.zip_long_repeat4
       (Field.with_point_mode
          (Samples.field_node Field.NONE false "Point" "AVG" [[(1, 2, 3)]] true)
          "MIN"))
  = Field.emitted
      (Field.process Host.zip_long_repeat4
         (Field.with_point_mode
            (Samples.field_node Field.NONE false "Point" "AVG" [[(1, 2, 3)]] true)
            "AVG")).
Proof.
  assert (Hall :
    Forall (fun obj => List.length (Field.centers_of obj) = 1%nat)
      (Field.objects_of Host.zip_long_repeat4
         (Samples.field_node Field.NONE false "Point" "AVG" [[(1, 2, 3)]] true))).
  { repeat constructor. }
  split; [reflexivity|]. split; [exact Hall|].
  apply (single_point_modes_agree Host.zip_long_repeat4
           (Samples.field_node Field.NONE false "Point" "AVG" [[(1, 2, 3)]] true));
    [reflexivity | exact Hall].
Defined.

(** ** The dispatch on the attractor type *)

Section AttractorType.

Import Field.

Variable zip_long_repeat :
  list (list point) -> list (list point) -> list socket_item ->
  list socket_item -> list object.

(** The else branch of the dispatch, which no item of the property
    selects. *)
Lemma process_object_unsupported :
  forall self centers direction amplitude coefficient,
    valid_attractor_type self = false ->
    readable amplitude = true ->
    readable coefficient = true ->
    process_object self (centers, direction, amplitude, coefficient)
    = Raise (Exception "not implemented yet").
Proof.
  intros self centers direction amplitude coefficient Hv Ha Hc.
  unfold valid_attractor_type in Hv.
  apply orb_false_elim in Hv. destruct Hv as [Hv HN].
  apply orb_false_elim in Hv. destruct Hv as [HP HL].
  unfold process_object.
  destruct amplitude as [a|a|[|a la]|[|a la]]; try discriminate Ha;
    destruct coefficient as [c|c|[|c lc]|[|c lc]]; try discriminate Hc;
    simpl; rewrite HP, HL, HN; reflexivity.
Qed.

(** The generic exception comes from the else branch only: on a node whose
    attractor type is one of the items of the property it is never
    raised. *)
Lemma valid_attractor_type_never_generic :
  forall self obj msg,
    valid_attractor_type self = true ->
    process_object self obj <> Raise (Exception msg).
Proof.
  intros self [[[centers direction] amplitude] coefficient] msg Hv.
  unfold valid_attractor_type in Hv. unfold process_object.
  destruct (first_if_list_or_tuple amplitude) as [a|ea] eqn:Ea.
  2:{ simpl. destruct amplitude as [v|n|[|v l]|[|v l]]; simpl in Ea;
        try discriminate; injection Ea as <-; discriminate. }
  destruct (first_if_list_or_tuple coefficient) as [c|ec] eqn:Ec.
  2:{ simpl. destruct coefficient as [v|n|[|v l]|[|v l]]; simpl in Ec;
        try discriminate; injection Ec as <-; discriminate. }
  simpl bind.
  destruct (attractor_type self =? "Point"); [discriminate|].
  destruct (attractor_type self =? "Line").
  - destruct centers, direction; simpl; discriminate.
  - destruct (attractor_type self =? "Plane"); [|discriminate Hv].
    destruct centers, direction; simpl; discriminate.
Qed.

(** For a supported type and objects that can be read, [process_object]
    returns fields. *)
Lemma process_object_supported :
  forall self center centers dir direction amplitude coefficient a c,
    first_if_list_or_tuple amplitude = Ok a ->
    first_if_list_or_tuple coefficient = Ok c ->
    process_object self (center :: centers, dir :: direction, amplitude, coefficient)
    = if attractor_type self =? "Point"
      then Ok (to_point self (center :: centers) (falloff_func self a c))
      else if attractor_type self =? "Line"
      then Ok (to_line center dir (falloff_func self a c))
      else if attractor_type self =? "Plane"
      then Ok (to_plane center dir (falloff_func self a c))
      else Raise (Exception "not implemented yet").
Proof.
  intros self center centers dir direction amplitude coefficient a c Ha Hc.
  unfold process_object. rewrite Ha, Hc. simpl.
  destruct (attractor_type self =? "Point"); [reflexivity|].
  destruct (attractor_type self =? "Line"); [reflexivity|].
  destruct (attractor_type self =? "Plane"); reflexivity.
Qed.

(** *** Line and plane attractors *)

Lemma process_object_same_first :
  forall self self' obj obj',
    attractor_type self = "Line" \/ attractor_type self = "Plane" ->
    attractor_type self' = attractor_type self ->
    falloff_type self' = falloff_type self ->
    clamp self' = clamp self ->
    same_first obj obj' ->
    process_object self obj = process_object self' obj'.
Proof.
  intros self self' [[[cs ds] a] c] [[[cs' ds'] a'] c'] Ht Hat Hft Hcl Hsame.
  destruct Hsame as [Hc [Hd [<- <-]]].
  unfold process_object, falloff_func. rewrite Hat, Hft, Hcl.
  destruct (first_if_list_or_tuple a) as [av|]; simpl; [|reflexivity].
  destruct (first_if_list_or_tuple c) as [cv|]; simpl; [|reflexivity].
  destruct Ht as [-> | ->]; simpl;
    destruct cs as [|c0 cs], cs' as [|c0' cs']; simpl in Hc; try discriminate;
    simpl; try reflexivity;
    injection Hc as <-;
    destruct ds as [|d0 ds], ds' as [|d0' ds']; simpl in Hd; try discriminate;
    simpl; try reflexivity;
    injection Hd as <-; reflexivity.
Qed.

Lemma process_loop_same_first :
  forall self self' objects objects' vfields sfields,
    attractor_type self = "Line" \/ attractor_type self = "Plane" ->
    attractor_type self' = attractor_type self ->
    falloff_type self' = falloff_type self ->
    clamp self' = clamp self ->
    Forall2 same_first objects objects' ->
    process_loop self objects vfields sfields
    = process_loop self' objects' vfields sfields.
Proof.
  intros self self' objects objects' vfields sfields Ht Hat Hft Hcl Hall.
  revert vfields sfields.
  induction Hall as [|obj obj' rest rest' Hsame Hrest IH]; intros vfields sfields.
  - reflexivity.
  - simpl.
    rewrite (process_object_same_first self self' obj obj' Ht Hat Hft Hcl Hsame).
    destruct (process_object self' obj') as [fields|]; simpl; [|reflexivity].
    apply IH.
Qed.

(** C10: for the Line and Plane attractor types the fields put on the
    outputs depend, object by object, only on the first center and the
    first direction (and on the amplitude, the coefficient and the falloff
    settings): two runs whose objects agree on those leave the same outputs
    or raise the same exception, whatever further centers and directions
    the objects hold. *)
Theorem line_plane_use_first_center_and_direction :
  forall self self' : SvExAttractorFieldNode,
    attractor_type self = "Line" \/ attractor_type self = "Plane" ->
    attractor_type self' = attractor_type self ->
    falloff_type self' = falloff_type self ->
    clamp self' = clamp self ->
    VField self' = VField self ->
    SField self' = SField self ->
    Forall2 same_first (objects_of zip_long_repeat self)
                       (objects_of zip_long_repeat self') ->
    emitted (process zip_long_repeat self)
    = emitted (process zip_long_repeat self').
Proof.
  intros self self' Ht Hat Hft Hcl HV HS Hall. unfold process.
  rewrite HV, HS.
  destruct (negb (is_linked (VField self) || is_linked (SField self))).
  - simpl. now rewrite HV, HS.
  - rewrite (process_loop_same_first self self' _ _ [] [] Ht Hat Hft Hcl Hall).
    destruct (process_loop self' _ [] []) as [out|]; simpl; [|reflexivity].
    now rewrite HV, HS.
Qed.

End AttractorType.

(** Without any input object the loop body never runs: whatever the
    attractor type, the node sets empty lists on its outputs. *)
Lemma process_without_objects :
  forall zip (self : Field.SvExAttractorFieldNode),
    is_linked (Field.VField self) || is_linked (Field.SField self) = true ->
    Field.objects_of zip self = [] ->
    Field.process zip self = Ok (Field.set_outputs self [] []).
Proof.
  intros zip self Hl Hobjs. unfold Field.process. rewrite Hl, Hobjs.
  reflexivity.
Qed.

(** With no output linked nothing is computed, whatever the inputs. *)
Lemma process_unlinked :
  forall zip (self : Field.SvExAttractorFieldNode),
    is_linked (Field.VField self) || is_linked (Field.SField self) = false ->
    Field.process zip self = Ok self.
Proof.
  intros zip self Hl. unfold Field.process. now rewrite Hl.
Qed.

Lemma line_plane_use_first_center_and_direction_witness :
  (Field.attractor_type
     (Samples.field_node (Field.Shape Field.gauss) true "Line" "AVG"
                         [[(0, 0, 0); (5, 5, 5)]] true) = "Line" \/
   Field.attractor_type
     (Samples.field_node (Field.Shape Field.gauss) true "Line" "AVG"
                         [[(0, 0, 0); (5, 5, 5)]] true) = "Plane") /\
  Forall2 Field.same_first
    (Field.objects_of Host.zip_long_repeat4
       (Samples.field_node (Field.Shape Field.gauss) true "Line" "AVG"
                           [[(0, 0, 0); (5, 5, 5)]] true))
    (Field.objects_of Host.zip_long_repeat4
       (Samples.field_node (Field.Shape Field.gauss) true "Line" "AVG"
                           [[(0, 0, 0)]] true)) /\
  Field.emitted
    (Field.process Host.zip_long_repeat4
       (Samples.field_node (Field.Shape Field.gauss) true "Line" "AVG"
                           [[(0, 0, 0); (5, 5, 5)]] true))
  = Field.emitted
      (Field.process Host.zip_long_repeat4
         (Samples.field_node (Field.Shape Field.gauss) true "Line" "AVG"
                             [[(0, 0, 0)]] true)).
Proof.
  assert (Hall :
    Forall2 Field.same_first
      (Field.objects_of Host.zip_long_repeat4
         (Samples.field_node (Field.Shape Field.gauss) true "Line" "AVG"
                             [[(0, 0, 0); (5, 5, 5)]] true))
      (Field.objects_of Host.zip_long_repeat4
         (Samples.field_node (Field.Shape Field.gauss) true "Line" "AVG"
                             [[(0, 0, 0)]] true))).
  { constructor; [|constructor]. unfold Field.same_first. simpl.
    repeat split; reflexivity. }
  split; [left; reflexivity|]. split; [exact Hall|].
  apply (line_plane_use_first_center_and_direction Host.zip_long_repeat4
           (Samples.field_node (Field.Shape Field.gauss) true "Line" "AVG"
                               [[(0, 0, 0); (5, 5, 5)]] true)
           (Samples.field_node (Field.Shape Field.gauss) true "Line" "AVG"
                               [[(0, 0, 0)]] true));
    [left; reflexivity | reflexivity | reflexivity | reflexivity
    | reflexivity | reflexivity | exact Hall].
Defined.

(** The line sample, run: one line field pair over the first center and
    the first direction. *)
Example line_sample :
  Field.process_object
    (Samples.field_node Field.NONE false "Line" "AVG" [[(0, 0, 0); (5, 5, 5)]] true)
    ([(0, 0, 0); (5, 5, 5)], [(0, 0, 1); (1, 0, 0)], Items [1 / 2], Items [1 / 2])
  = Ok (Field.SvExLineAttractorVectorField (0, 0, 0) (0, 0, 1) None,
        Field.SvExLineAttractorScalarField (0, 0, 0) (0, 0, 1) None).
Proof. reflexivity. Qed.

(** A line attractor without any center stops on [centers[0]]. *)
Example line_without_center :
  Field.process_object
    (Samples.field_node Field.NONE false "Line" "AVG" [[]] true)
    ([], [(0, 0, 1)], Items [1 / 2], Items [1 / 2])
  = Raise IndexError.
Proof. reflexivity. Qed.

(** * Further properties of the attractor field node *)

Section FieldRuns.

Import Field.

Variable zip_long_repeat :
  list (list point) -> list (list point) -> list socket_item ->
  list socket_item -> list object.

(** *** The loop of [process] *)

(** When every object gives its pair of fields the loop appends the pairs
    in order. *)
Lemma process_loop_all_ok :
  forall self objects results vfields sfields,
    Forall2 (fun o r => process_object self o = Ok r) objects results ->
    process_loop self objects vfields sfields
    = Ok ((vfields ++ map fst results)%list, (sfields ++ map snd results)%list).
Proof.
  intros self objects results vfields sfields Hall. revert vfields sfields.
  induction Hall as [|o r objects results Ho _ IH]; intros vfields sfields.
  - simpl. now rewrite !app_nil_r.
  - cbn [process_loop]. rewrite Ho. simpl bind. rewrite IH.
    simpl. now rewrite <- !app_assoc.
Qed.

Lemma process_loop_ok_inv :
  forall self objects vfields sfields out,
    process_loop self objects vfields sfields = Ok out ->
    exists results,
      Forall2 (fun o r => process_object self o = Ok r) objects results /\
      out = ((vfields ++ map fst results)%list, (sfields ++ map snd results)%list).
Proof.
  intros self objects. induction objects as [|o objects IH];
    intros vfields sfields out H.
  - simpl in H. injection H as <-. exists []. split; [constructor|].
    simpl. now rewrite !app_nil_r.
  - cbn [process_loop] in H.
    destruct (process_object self o) as [r|e] eqn:Ho; simpl in H;
      [|discriminate].
    destruct (IH _ _ _ H) as [results [Hall ->]].
    exists (r :: results). split; [now constructor|].
    simpl. now rewrite <- !app_assoc.
Qed.

(** The loop stops at the first object that raises. *)
Lemma process_loop_first_failure :
  forall self pre o post e vfields sfields,
    Forall (fun o => exists r, process_object self o = Ok r) pre ->
    process_object self o = Raise e ->
    process_loop self (pre ++ o :: post)%list vfields sfields = Raise e.
Proof.
  intros self pre o post e vfields sfields Hpre Ho. revert vfields sfields.
  induction Hpre as [|p pre [r Hp] _ IH]; intros vfields sfields.
  - cbn [app process_loop]. now rewrite Ho.
  - cbn [app process_loop]. rewrite Hp. simpl bind. apply IH.
Qed.

(** X1: with an output linked, [process] returns normally exactly when
    every object gives its pair of fields, and then the two outputs hold
    the vector fields and the scalar fields of the objects, one each per
    object and in the order of the objects. *)
Theorem process_emits_one_pair_per_object :
  forall self self' : SvExAttractorFieldNode,
    is_linked (VField self) || is_linked (SField self) = true ->
    (process zip_long_repeat self = Ok self' <->
     exists results,
       Forall2 (fun o r => process_object self o = Ok r)
               (objects_of zip_long_repeat self) results /\
       self' = set_outputs self (map fst results) (map snd results)).
Proof.
  intros self self' Hl. unfold process. rewrite Hl. simpl negb. cbv iota.
  split.
  - intros H.
    destruct (process_loop self (objects_of zip_long_repeat self) [] [])
      as [out|e] eqn:E; simpl in H; [|discriminate].
    injection H as <-.
    destruct (process_loop_ok_inv _ _ _ _ _ E) as [results [Hall ->]].
    exists results. split; [exact Hall | reflexivity].
  - intros [results [Hall ->]].
    rewrite (process_loop_all_ok self _ results [] [] Hall). reflexivity.
Qed.

(** X2: with an output linked, [process] raises the exception of the first
    object that fails; the fields of the objects before it are dropped and
    nothing is set on the outputs. *)
Theorem process_raises_first_failure :
  forall (self : SvExAttractorFieldNode) pre o post e,
    is_linked (VField self) || is_linked (SField self) = true ->
    objects_of zip_long_repeat self = (pre ++ o :: post)%list ->
    Forall (fun o => exists r, process_object self o = Ok r) pre ->
    process_object self o = Raise e ->
    process zip_long_repeat self = Raise e.
Proof.
  intros self pre o post e Hl Hobjs Hpre Ho. unfold process.
  rewrite Hl, Hobjs. simpl negb. cbv iota.
  now rewrite (process_loop_first_failure self pre o post e [] [] Hpre Ho).
Qed.

(** *** What one object can raise *)

Lemma first_if_list_or_tuple_readable :
  forall x,
    (readable x = true -> exists v, first_if_list_or_tuple x = Ok v) /\
    (readable x = false -> first_if_list_or_tuple x = Raise IndexError).
Proof.
  intros [v|n|[|v l]|[|v l]]; simpl; split; intros H; try discriminate;
    try reflexivity; eexists; reflexivity.
Qed.

(** X3: for a Point attractor an object gives fields exactly when its
    amplitude and coefficient can be read; the centers never make it fail,
    not even an empty list of centers, and the only exception is
    IndexError. *)
Theorem point_object_errors :
  forall (self : SvExAttractorFieldNode) centers direction amplitude coefficient,
    attractor_type self = "Point" ->
    ((exists r,
        process_object self (centers, direction, amplitude, coefficient) = Ok r)
     <-> readable amplitude && readable coefficient = true) /\
    (forall e,
        process_object self (centers, direction, amplitude, coefficient) = Raise e ->
        e = IndexError).
Proof.
  intros self centers direction amplitude coefficient Ht.
  unfold process_object. rewrite Ht. simpl String.eqb.
  destruct (first_if_list_or_tuple_readable amplitude) as [Ha1 Ha0].
  destruct (first_if_list_or_tuple_readable coefficient) as [Hc1 Hc0].
  destruct (readable amplitude).
  - destruct (Ha1 eq_refl) as [a ->]. simpl bind.
    destruct (readable coefficient).
    + destruct (Hc1 eq_refl) as [c ->]. simpl. split.
      * split; [reflexivity | intros _; eexists; reflexivity].
      * intros e H. discriminate.
    + rewrite (Hc0 eq_refl). simpl. split.
      * split; [intros [r H]; discriminate | discriminate].
      * intros e H. now injection H as <-.
  - rewrite (Ha0 eq_refl). simpl. split.
    + split; [intros [r H]; discriminate | discriminate].
    + intros e H. now injection H as <-.
Qed.

(** X4: for a Line or Plane attractor an object gives fields exactly when
    its amplitude and coefficient can be read and it has at least one
    center and at least one direction; the only exception is IndexError. *)
Theorem line_plane_object_errors :
  forall (self : SvExAttractorFieldNode) centers direction amplitude coefficient,
    attractor_type self = "Line" \/ attractor_type self = "Plane" ->
    ((exists r,
        process_object self (centers, direction, amplitude, coefficient) = Ok r)
     <-> readable amplitude && readable coefficient
         && nonempty centers && nonempty direction = true) /\
    (forall e,
        process_object self (centers, direction, amplitude, coefficient) = Raise e ->
        e = IndexError).
Proof.
  intros self centers direction amplitude coefficient Ht.
  unfold process_object.
  destruct (first_if_list_or_tuple_readable amplitude) as [Ha1 Ha0].
  destruct (first_if_list_or_tuple_readable coefficient) as [Hc1 Hc0].
  destruct (readable amplitude).
  - destruct (Ha1 eq_refl) as [a ->]. simpl bind.
    destruct (readable coefficient).
    + destruct (Hc1 eq_refl) as [c ->]. simpl bind.
      destruct Ht as [-> | ->]; simpl String.eqb; cbv iota;
        destruct centers as [|c0 cs], direction as [|d0 ds]; simpl;
        (split;
         [ split;
           [ intros [r H]; first [discriminate H | reflexivity]
           | intros H; first [discriminate H | eexists; reflexivity] ]
         | intros e H; first [discriminate H | now injection H as <-] ]).
    + rewrite (Hc0 eq_refl). simpl. split.
      * split; [intros [r H]; discriminate | discriminate].
      * intros e H. now injection H as <-.
  - rewrite (Ha0 eq_refl). simpl. split.
    + split; [intros [r H]; discriminate | discriminate].
    + intros e H. now injection H as <-.
Qed.

End FieldRuns.

(** ** Inputs and settings that do not reach the fields *)

Section FieldIrrelevance.

Import Field.

Variable zip_long_repeat :
  list (list point) -> list (list point) -> list socket_item ->
  list socket_item -> list object.

Lemma draw_buttons_point_mode :
  forall self,
    In "point_mode" (draw_buttons self) <-> attractor_type self = "Point".
Proof.
  intros self. unfold draw_buttons.
  destruct (attractor_type self =? "Point") eqn:E.
  - apply String.eqb_eq in E. split; [auto | intros _; simpl; auto].
  - apply String.eqb_neq in E. split; [|intros H; contradiction].
    simpl. intros [H | [H | [H | []]]]; discriminate.
Qed.

Lemma process_object_other_mode :
  forall self mode mode' obj,
    attractor_type self <> "Point" ->
    process_object (with_point_mode self mode) obj
    = process_object (with_point_mode self mode') obj.
Proof.
  intros self mode mode' [[[centers direction] amplitude] coefficient] Ht.
  apply String.eqb_neq in Ht. unfold process_object. simpl attractor_type.
  rewrite Ht. reflexivity.
Qed.

Lemma process_loop_other_mode :
  forall self mode mode' objects vfields sfields,
    attractor_type self <> "Point" ->
    process_loop (with_point_mode self mode) objects vfields sfields
    = process_loop (with_point_mode self mode') objects vfields sfields.
Proof.
  intros self mode mode' objects. induction objects as [|o objects IH];
    intros vfields sfields Ht.
  - reflexivity.
  - cbn [process_loop].
    rewrite (process_object_other_mode self mode mode' o Ht).
    destruct (process_object (with_point_mode self mode') o); simpl;
      [now apply IH | reflexivity].
Qed.

(** X5: whenever [draw_buttons] does not lay out the point mode, the
    point mode has no effect on what [process] leaves on the outputs. *)
Theorem undrawn_point_mode_has_no_effect :
  forall (self : SvExAttractorFieldNode) (mode mode' : string),
    ~ In "point_mode" (draw_buttons self) ->
    emitted (process zip_long_repeat (with_point_mode self mode))
    = emitted (process zip_long_repeat (with_point_mode self mode')).
Proof.
  intros self mode mode' Hdraw.
  assert (Ht : attractor_type self <> "Point")
    by (intros H; apply Hdraw; now apply draw_buttons_point_mode).
  unfold process, objects_of. simpl.
  destruct (negb (is_linked (VField self) || is_linked (SField self)));
    [reflexivity|].
  rewrite (process_loop_other_mode self mode mode' _ [] [] Ht).
  destruct (process_loop (with_point_mode self mode') _ [] []); reflexivity.
Qed.

Lemma process_loop_related :
  forall (related : object -> object -> Prop) self self',
    (forall o o', related o o' -> process_object self o = process_object self' o') ->
    forall objects objects' vfields sfields,
      Forall2 related objects objects' ->
      process_loop self objects vfields sfields
      = process_loop self' objects' vfields sfields.
Proof.
  intros related self self' Hobj objects objects' vfields sfields Hall.
  revert vfields sfields.
  induction Hall as [|o o' objects objects' Ho _ IH]; intros vfields sfields.
  - reflexivity.
  - cbn [process_loop]. rewrite (Hobj o o' Ho).
    destruct (process_object self' o'); simpl; [apply IH | reflexivity].
Qed.

Lemma process_related :
  forall (related : object -> object -> Prop) self self',
    (forall o o', related o o' -> process_object self o = process_object self' o') ->
    VField self' = VField self ->
    SField self' = SField self ->
    Forall2 related (objects_of zip_long_repeat self)
                    (objects_of zip_long_repeat self') ->
    emitted (process zip_long_repeat self)
    = emitted (process zip_long_repeat self').
Proof.
  intros related self self' Hobj HV HS Hall. unfold process.
  rewrite HV, HS.
  destruct (negb (is_linked (VField self) || is_linked (SField self))).
  - simpl. now rewrite HV, HS.
  - rewrite (process_loop_related related self self' Hobj _ _ [] [] Hall).
    destruct (process_loop self' _ [] []); simpl; [|reflexivity].
    now rewrite HV, HS.
Qed.

(** X6: whenever [update_type] hides the Direction socket, the directions
    have no effect: two runs whose objects differ at most in their
    directions leave the same outputs or raise the same exception. *)
Theorem hidden_direction_has_no_effect :
  forall self self' : SvExAttractorFieldNode,
    hide_Direction (update_type self) = true ->
    attractor_type self' = attractor_type self ->
    falloff_type self' = falloff_type self ->
    clamp self' = clamp self ->
    point_mode self' = point_mode self ->
    VField self' = VField self ->
    SField self' = SField self ->
    Forall2 same_but_direction (objects_of zip_long_repeat self)
                               (objects_of zip_long_repeat self') ->
    emitted (process zip_long_repeat self)
    = emitted (process zip_long_repeat self').
Proof.
  intros self self' Hhide Hat Hft Hcl Hpm HV HS Hall.
  apply (process_related same_but_direction); try assumption.
  intros [[[cs ds] a] c] [[[cs' ds'] a'] c'] [<- [<- <-]].
  unfold process_object, falloff_func, to_point.
  rewrite Hat, Hft, Hcl, Hpm.
  simpl in Hhide. rewrite Hhide. reflexivity.
Qed.

(** X7: with falloff type 'NONE' the values of the amplitude and of the
    coefficient have no effect: two runs whose objects have the same
    centers and directions, and amplitudes and coefficients that can be
    read in the one exactly when they can in the other, leave the same
    outputs or raise the same exception. *)
Theorem falloff_none_ignores_values :
  forall self self' : SvExAttractorFieldNode,
    falloff_type self = NONE ->
    attractor_type self' = attractor_type self ->
    falloff_type self' = falloff_type self ->
    point_mode self' = point_mode self ->
    VField self' = VField self ->
    SField self' = SField self ->
    Forall2 same_but_values (objects_of zip_long_repeat self)
                            (objects_of zip_long_repeat self') ->
    emitted (process zip_long_repeat self)
    = emitted (process zip_long_repeat self').
Proof.
  intros self self' Hnone Hat Hft Hpm HV HS Hall.
  apply (process_related same_but_values); try assumption.
  intros [[[cs ds] a] c] [[[cs' ds'] a'] c'] [<- [<- [Ha Hc]]].
  unfold process_object, falloff_func, to_point.
  rewrite Hat, Hft, Hpm, Hnone.
  destruct (first_if_list_or_tuple_readable a) as [Ha1 Ha0].
  destruct (first_if_list_or_tuple_readable a') as [Ha1' Ha0'].
  destruct (first_if_list_or_tuple_readable c) as [Hc1 Hc0].
  destruct (first_if_list_or_tuple_readable c') as [Hc1' Hc0'].
  rewrite <- Ha in Ha1', Ha0'. rewrite <- Hc in Hc1', Hc0'.
  destruct (readable a).
  - destruct (Ha1 eq_refl) as [v ->]. destruct (Ha1' eq_refl) as [v' ->].
    simpl bind. destruct (readable c).
    + destruct (Hc1 eq_refl) as [w ->]. destruct (Hc1' eq_refl) as [w' ->].
      reflexivity.
    + rewrite (Hc0 eq_refl), (Hc0' eq_refl). reflexivity.
  - rewrite (Ha0 eq_refl), (Ha0' eq_refl). reflexivity.
Qed.

(** [update_type] shows the Amplitude socket exactly for 'NONE'. *)
Lemma update_type_amplitude :
  forall self, hide_Amplitude (update_type self) = false <-> falloff_type self = NONE.
Proof.
  intros self. unfold update_type. simpl.
  destruct (falloff_type self) as [|[|]]; simpl; split; intros H;
    try reflexivity; discriminate.
Qed.

Lemma process_object_with_output_data :
  forall self vdata sdata obj,
    process_object (with_output_data self vdata sdata) obj
    = process_object self obj.
Proof. intros self vdata sdata [[[cs ds] a] c]. reflexivity. Qed.

Lemma process_loop_with_output_data :
  forall self vdata sdata objects vfields sfields,
    process_loop (with_output_data self vdata sdata) objects vfields sfields
    = process_loop self objects vfields sfields.
Proof.
  intros self vdata sdata objects.
  induction objects as [|o objects IH]; intros vfields sfields.
  - reflexivity.
  - cbn [process_loop]. rewrite process_object_with_output_data.
    destruct (process_object self o); simpl; [apply IH | reflexivity].
Qed.

(** X8: with an output linked, a run of [process] does not depend on what
    an earlier run left on the outputs: whatever data the two sockets hold
    before the run, the run leaves the same data on them or raises the same
    exception. *)
Theorem process_ignores_earlier_outputs :
  forall (self : SvExAttractorFieldNode)
         (vdata vdata' : option (list vector_field))
         (sdata sdata' : option (list scalar_field)),
    is_linked (VField self) || is_linked (SField self) = true ->
    emitted (process zip_long_repeat (with_output_data self vdata sdata))
    = emitted (process zip_long_repeat (with_output_data self vdata' sdata')).
Proof.
  intros self vdata vdata' sdata sdata' Hl.
  unfold process, objects_of. simpl. rewrite Hl. simpl.
  rewrite !process_loop_with_output_data.
  destruct (process_loop self _ [] []); reflexivity.
Qed.

End FieldIrrelevance.

(** ** The tree of the nearest mode *)

Section NearestTree.

Import Field.

(** X9: for any number of centers other than one, the nearest mode gives
    both fields the same kd-tree; the tree is balanced, holds exactly as
    many items as the size it was created with, and holds the pair
    (v, i) exactly when v is the i-th center. *)
Theorem nearest_mode_tree :
  forall (self : SvExAttractorFieldNode) (centers : list point)
         (falloff : option falloff_function),
    point_mode self <> "AVG" ->
    List.length centers <> 1%nat ->
    exists kdt,
      to_point self centers falloff
      = (SvExKdtVectorField kdt falloff, SvExKdtScalarField kdt falloff) /\
      kd_balanced kdt = true /\
      kd_size kdt = List.length centers /\
      List.length (kd_items kdt) = kd_size kdt /\
      (forall v i, In (v, i) (kd_items kdt) <-> nth_error centers i = Some v).
Proof.
  intros self centers falloff Hmode Hn. apply String.eqb_neq in Hmode.
  exists {| kd_size := List.length centers;
            kd_items := map (fun iv => (snd iv, fst iv)) (enumerate centers);
            kd_balanced := true |}.
  split; [|split; [|split; [|split]]].
  - unfold to_point. rewrite Hmode. cbv zeta. rewrite to_point_kdtree.
    destruct centers as [|c0 [|c1 rest]]; try reflexivity.
    now elim Hn.
  - reflexivity.
  - reflexivity.
  - simpl. now rewrite length_map, enumerate_length.
  - intros v i. simpl. rewrite in_map_iff. split.
    + intros [[j w] [Heq Hin]]. simpl in Heq. injection Heq as -> ->.
      apply In_nth_error in Hin. destruct Hin as [k Hk].
      destruct (nth_error centers k) as [u|] eqn:Eu.
      * rewrite (enumerate_nth_error _ centers k u Eu) in Hk.
        injection Hk as <- <-. exact Eu.
      * apply nth_error_None in Eu.
        assert (Hlt : (k < List.length (enumerate centers))%nat)
          by (apply nth_error_Some; now rewrite Hk).
        rewrite enumerate_length in Hlt. lia.
    + intros H. exists (i, v). split; [reflexivity|].
      eapply nth_error_In. now apply enumerate_nth_error.
Qed.

End NearestTree.

(** ** The further properties of the attractor node on the samples *)

Lemma process_emits_one_pair_per_object_witness :
  is_linked (Field.VField Samples.line_node)
  || is_linked (Field.SField Samples.line_node) = true /\
  (Field.process Host.zip_long_repeat4 Samples.line_node
   = Ok (Field.set_outputs Samples.line_node
           [Field.SvExLineAttractorVectorField (0, 0, 0) (0, 0, 1) None]
           [Field.SvExLineAttractorScalarField (0, 0, 0) (0, 0, 1) None])
   <-> exists results,
         Forall2 (fun o r => Field.process_object Samples.line_node o = Ok r)
                 (Field.objects_of Host.zip_long_repeat4 Samples.line_node)
                 results /\
         Field.set_outputs Samples.line_node
           [Field.SvExLineAttractorVectorField (0, 0, 0) (0, 0, 1) None]
           [Field.SvExLineAttractorScalarField (0, 0, 0) (0, 0, 1) None]
         = Field.set_outputs Samples.line_node (map fst results) (map snd results)).
Proof.
  split; [reflexivity|].
  apply (process_emits_one_pair_per_object Host.zip_long_repeat4
           Samples.line_node).
  reflexivity.
Defined.

Lemma process_raises_first_failure_witness :
  Field.objects_of Host.zip_long_repeat4 Samples.failing_line_node
  = ([([(0, 0, 0)], [(0, 0, 1)], Items [1 / 2], Items [1 / 2])]
     ++ ([], [(0, 0, 1)], Items [1 / 2], Items [1 / 2]) :: [])%list /\
  Field.process Host.zip_long_repeat4 Samples.failing_line_node
  = Raise IndexError.
Proof.
  split; [reflexivity|].
  apply (process_raises_first_failure Host.zip_long_repeat4
           Samples.failing_line_node
           [([(0, 0, 0)], [(0, 0, 1)], Items [1 / 2], Items [1 / 2])]
           ([], [(0, 0, 1)], Items [1 / 2], Items [1 / 2]) []).
  - reflexivity.
  - reflexivity.
  - constructor; [|constructor]. eexists. reflexivity.
  - reflexivity.
Defined.

Lemma point_object_errors_witness :
  Field.attractor_type Samples.point_node = "Point" /\
  ((exists r,
      Field.process_object Samples.point_node
        ([], [], Items [1 / 2], Items [1 / 2]) = Ok r)
   <-> Field.readable (Items [1 / 2]) && Field.readable (Items [1 / 2]) = true) /\
  (forall e,
      Field.process_object Samples.point_node
        ([], [], Items [1 / 2], Items [1 / 2]) = Raise e ->
      e = IndexError).
Proof.
  split; [reflexivity|].
  apply (point_object_errors Samples.point_node [] []
           (Items [1 / 2]) (Items [1 / 2])).
  reflexivity.
Defined.

Lemma line_plane_object_errors_witness :
  (Field.attractor_type Samples.line_node = "Line" \/
   Field.attractor_type Samples.line_node = "Plane") /\
  ((exists r,
      Field.process_object Samples.line_node
        ([(0, 0, 0)], [], Items [1 / 2], Items [1 / 2]) = Ok r)
   <-> Field.readable (Items [1 / 2]) && Field.readable (Items [1 / 2])
       && Field.nonempty [(0, 0, 0)] && Field.nonempty (@nil point) = true) /\
  (forall e,
      Field.process_object Samples.line_node
        ([(0, 0, 0)], [], Items [1 / 2], Items [1 / 2]) = Raise e ->
      e = IndexError).
Proof.
  split; [left; reflexivity|].
  apply (line_plane_object_errors Samples.line_node [(0, 0, 0)] []
           (Items [1 / 2]) (Items [1 / 2])).
  left. reflexivity.
Defined.

Lemma undrawn_point_mode_has_no_effect_witness :
  ~ In "point_mode" (Field.draw_buttons Samples.line_node) /\
  Field.emitted
    (Field.process Host.zip_long_repeat4
       (Field.with_point_mode Samples.line_node "AVG"))
  = Field.emitted
      (Field.process Host.zip_long_repeat4
         (Field.with_point_mode Samples.line_node "MIN")).
Proof.
  assert (H : ~ In "point_mode" (Field.draw_buttons Samples.line_node)).
  { simpl. intros [H | [H | [H | []]]]; discriminate. }
  split; [exact H|].
  apply (undrawn_point_mode_has_no_effect Host.zip_long_repeat4
           Samples.line_node "AVG" "MIN" H).
Defined.

Lemma hidden_direction_has_no_effect_witness :
  Field.hide_Direction (Field.update_type Samples.point_node) = true /\
  Forall2 Field.same_but_direction
    (Field.objects_of Host.zip_long_repeat4 Samples.point_node)
    (Field.objects_of Host.zip_long_repeat4 Samples.point_node_other_direction) /\
  Field.emitted (Field.process Host.zip_long_repeat4 Samples.point_node)
  = Field.emitted
      (Field.process Host.zip_long_repeat4 Samples.point_node_other_direction).
Proof.
  assert (Hall :
    Forall2 Field.same_but_direction
      (Field.objects_of Host.zip_long_repeat4 Samples.point_node)
      (Field.objects_of Host.zip_long_repeat4
         Samples.point_node_other_direction)).
  { constructor; [|constructor]. repeat split; reflexivity. }
  split; [reflexivity|]. split; [exact Hall|].
  apply (hidden_direction_has_no_effect Host.zip_long_repeat4
           Samples.point_node Samples.point_node_other_direction);
    [reflexivity | reflexivity | reflexivity | reflexivity | reflexivity
    | reflexivity | reflexivity | exact Hall].
Defined.

Lemma falloff_none_ignores_values_witness :
  Field.falloff_type Samples.point_node = Field.NONE /\
  Forall2 Field.same_but_values
    (Field.objects_of Host.zip_long_repeat4 Samples.point_node)
    (Field.objects_of Host.zip_long_repeat4 Samples.point_node_other_values) /\
  Field.emitted (Field.process Host.zip_long_repeat4 Samples.point_node)
  = Field.emitted
      (Field.process Host.zip_long_repeat4 Samples.point_node_other_values).
Proof.
  assert (Hall :
    Forall2 Field.same_but_values
      (Field.objects_of Host.zip_long_repeat4 Samples.point_node)
      (Field.objects_of Host.zip_long_repeat4 Samples.point_node_other_values)).
  { constructor; [|constructor]. repeat split; reflexivity. }
  split; [reflexivity|]. split; [exact Hall|].
  apply (falloff_none_ignores_values Host.zip_long_repeat4
           Samples.point_node Samples.point_node_other_values);
    [reflexivity | reflexivity | reflexivity | reflexivity | reflexivity
    | reflexivity | exact Hall].
Defined.

Lemma process_ignores_earlier_outputs_witness :
  is_linked (Field.VField Samples.line_node)
  || is_linked (Field.SField Samples.line_node) = true /\
  Field.emitted
    (Field.process Host.zip_long_repeat4
       (Field.with_output_data Samples.line_node None None))
  = Field.emitted
      (Field.process Host.zip_long_repeat4
         (Field.with_output_data Samples.line_node
            (Some [Field.SvExAverageVectorField []])
            (Some [Field.SvExMergedScalarField "AVG" []]))).
Proof.
  split; [reflexivity|].
  apply (process_ignores_earlier_outputs Host.zip_long_repeat4
           Samples.line_node).
  reflexivity.
Defined.

Lemma nearest_mode_tree_witness :
  "MIN" <> "AVG" /\
  List.length [(0, 0, 0); (1, 0, 0)] <> 1%nat /\
  exists kdt,
    Field.to_point
      (Samples.field_node Field.NONE false "Point" "MIN"
                          [[(0, 0, 0); (1, 0, 0)]] true)
      [(0, 0, 0); (1, 0, 0)] None
    = (Field.SvExKdtVectorField kdt None, Field.SvExKdtScalarField kdt None) /\
    Field.kd_balanced kdt = true /\
    Field.kd_size kdt = 2%nat /\
    List.length (Field.kd_items kdt) = Field.kd_size kdt /\
    (forall v i, In (v, i) (Field.kd_items kdt)
                 <-> nth_error [(0, 0, 0); (1, 0, 0)] i = Some v).
Proof.
  split; [discriminate|]. split; [simpl; discriminate|].
  apply (nearest_mode_tree
           (Samples.field_node Field.NONE false "Point" "MIN"
                               [[(0, 0, 0); (1, 0, 0)]] true)
           [(0, 0, 0); (1, 0, 0)] None).
  - simpl. discriminate.
  - simpl. discriminate.
Defined.

(** * Further properties of the curve node *)

Section CurveRuns.

Import Curve.

Variable zip_long_repeat :
  list (list point) -> list socket_item -> list socket_item ->
  list (list point * socket_item * socket_item).
Variable normalize : bool.

Lemma curve_process_loop_ok_inv :
  forall self objects curves_out curves,
    process_loop normalize self objects curves_out = Ok curves ->
    exists new,
      Forall2 (fun o c => process_object normalize self o = Ok c) objects new /\
      curves = (curves_out ++ new)%list.
Proof.
  intros self objects. induction objects as [|o objects IH];
    intros curves_out curves H.
  - simpl in H. injection H as <-. exists []. split; [constructor|].
    now rewrite app_nil_r.
  - cbn [process_loop] in H.
    destruct (process_object normalize self o) as [c|e] eqn:Ho; simpl in H;
      [|discriminate].
    destruct (IH _ _ H) as [new [Hall ->]].
    exists (c :: new). split; [now constructor|].
    now rewrite <- app_assoc.
Qed.

Lemma curve_process_ok_inv :
  forall self self',
    is_linked (Curve self) = true ->
    process zip_long_repeat normalize self = Ok self' ->
    exists curves,
      Forall2 (fun o c => process_object normalize self o = Ok c)
              (zip_long_repeat (Vertices self) (Epsilon self) (Smooth self))
              curves /\
      self' = set_Curve self curves.
Proof.
  intros self self' Hl H. unfold process in H. rewrite Hl in H. simpl in H.
  destruct (process_loop normalize self _ []) as [curves|] eqn:E;
    simpl in H; [|discriminate].
  injection H as <-.
  destruct (curve_process_loop_ok_inv _ _ _ _ E) as [new [Hall ->]].
  exists new. split; [exact Hall | reflexivity].
Qed.

Lemma first_if_list_or_int_readable :
  forall x v, first_if_list_or_int x = Ok v -> readable x = true.
Proof.
  intros [w|n|[|w l]|t] v H; simpl in *; try discriminate; reflexivity.
Qed.

(** X10: when [process] returns with the output linked, the curves on the
    output follow the objects one to one and in order, and the curve of an
    object is fitted over the vertices of that object, with the epsilon
    read from its epsilon item and the smooth read from its smooth item,
    the node's function and the mode 'N-D'. *)
Theorem curves_follow_objects :
  forall self self' : SvExRbfCurveNode,
    is_linked (Curve self) = true ->
    process zip_long_repeat normalize self = Ok self' ->
    exists curves,
      sv_data (Curve self') = Some curves /\
      Forall2
        (fun (o : list point * socket_item * socket_item) c =>
           let '(vertices, epsilon, smooth) := o in
           rbf_d (curve_rbf c) = vertices /\
           rbf_x (curve_rbf c) = make_euclidian_ts normalize vertices /\
           first_if_list_or_int epsilon = Ok (rbf_epsilon (curve_rbf c)) /\
           first_if_list_or_int smooth = Ok (rbf_smooth (curve_rbf c)) /\
           rbf_function (curve_rbf c) = function self /\
           rbf_mode (curve_rbf c) = "N-D")
        (zip_long_repeat (Vertices self) (Epsilon self) (Smooth self))
        curves.
Proof.
  intros self self' Hl H.
  destruct (curve_process_ok_inv self self' Hl H) as [curves [Hall ->]].
  exists curves. split; [reflexivity|].
  eapply Forall2_impl; [|exact Hall].
  intros [[vertices epsilon] smooth] c Hc. unfold process_object in Hc.
  destruct (first_if_list_or_int epsilon) as [e|]; simpl in Hc; [|discriminate].
  destruct (first_if_list_or_int smooth) as [s|]; simpl in Hc; [|discriminate].
  injection Hc as <-. simpl. repeat split; reflexivity.
Qed.

(** X11: [process] returns with the output linked only if, in every
    object, the epsilon and the smooth are each a float, a tuple or a
    non-empty list: an int or an empty list on either, in any object, stops
    the run with an exception. *)
Theorem curve_process_needs_readable_items :
  forall self self' : SvExRbfCurveNode,
    is_linked (Curve self) = true ->
    process zip_long_repeat normalize self = Ok self' ->
    Forall
      (fun o : list point * socket_item * socket_item =>
         readable (snd (fst o)) && readable (snd o) = true)
      (zip_long_repeat (Vertices self) (Epsilon self) (Smooth self)).
Proof.
  intros self self' Hl H.
  destruct (curve_process_ok_inv self self' Hl H) as [curves [Hall _]].
  induction Hall as [|[[vertices epsilon] smooth] c objects curves Ho _ IH];
    constructor; [|exact IH].
  unfold process_object in Ho. simpl.
  destruct (first_if_list_or_int epsilon) as [e|] eqn:Ee; simpl in Ho;
    [|discriminate].
  destruct (first_if_list_or_int smooth) as [s|] eqn:Es; simpl in Ho;
    [|discriminate].
  rewrite (first_if_list_or_int_readable _ _ Ee).
  now rewrite (first_if_list_or_int_readable _ _ Es).
Qed.

(** X12: the first object is read before anything is fitted: with the
    output linked, an int as its epsilon raises TypeError and an empty
    list raises IndexError, and when its epsilon can be read the same
    holds for its smooth. *)
Theorem curve_first_object_unreadable :
  forall (self : SvExRbfCurveNode) vertices epsilon smooth rest,
    is_linked (Curve self) = true ->
    zip_long_repeat (Vertices self) (Epsilon self) (Smooth self)
    = (vertices, epsilon, smooth) :: rest ->
    readable epsilon && readable smooth = false ->
    process zip_long_repeat normalize self
    = Raise (match (if readable epsilon then smooth else epsilon) with
             | Int _ => TypeError
             | _ => IndexError
             end).
Proof.
  intros self vertices epsilon smooth rest Hl Hz Hr.
  unfold process. rewrite Hl, Hz. simpl negb. cbv iota.
  cbn [process_loop]. unfold process_object.
  destruct epsilon as [e|n|[|e le]|te]; simpl in *; try reflexivity;
    destruct smooth as [s|m|[|s ls]|ts]; simpl in *; try reflexivity;
    discriminate.
Qed.

Lemma curve_process_loop_with_output_data :
  forall self data objects curves_out,
    process_loop normalize (with_output_data self data) objects curves_out
    = process_loop normalize self objects curves_out.
Proof.
  intros self data objects.
  induction objects as [|[[v e] s] objects IH]; intros curves_out.
  - reflexivity.
  - cbn [process_loop].
    replace (process_object normalize (with_output_data self data) (v, e, s))
      with (process_object normalize self (v, e, s)) by reflexivity.
    destruct (process_object normalize self (v, e, s)); simpl;
      [apply IH | reflexivity].
Qed.

(** X13: with the output linked, a run of [process] does not depend on the
    curves an earlier run left on the output: whatever data the socket
    holds before the run, the run leaves the same curves on it or raises
    the same exception. *)
Theorem curve_process_ignores_earlier_output :
  forall (self : SvExRbfCurveNode) (data data' : option (list SvExRbfCurve)),
    is_linked (Curve self) = true ->
    match process zip_long_repeat normalize (with_output_data self data),
          process zip_long_repeat normalize (with_output_data self data') with
    | Ok after, Ok after' => Curve after = Curve after'
    | Raise e, Raise e' => e = e'
    | _, _ => False
    end.
Proof.
  intros self data data' Hl. unfold process. simpl. rewrite Hl. simpl.
  rewrite !curve_process_loop_with_output_data.
  destruct (process_loop normalize self _ []); reflexivity.
Qed.

End CurveRuns.

(** X14: [unregister] undoes [register], with scipy and without it: on a
    registry that does not hold the node class already, registering and
    then unregistering gives the registry back. *)
Theorem unregister_after_register :
  forall (scipy : Curve.dependency) (registry : list string),
    ~ In "SvExRbfCurveNode" registry ->
    bind (Curve.register scipy registry) (Curve.unregister scipy) = Ok registry.
Proof.
  intros [[]|] registry Hnot; [|reflexivity].
  unfold Curve.register. simpl. unfold Curve.register_class.
  destruct (in_dec string_dec "SvExRbfCurveNode" registry) as [Hin|_];
    [contradiction|].
  simpl. unfold Curve.unregister_class.
  destruct (in_dec string_dec "SvExRbfCurveNode"
                   ("SvExRbfCurveNode" :: registry)) as [_|Hout].
  - simpl. destruct (string_dec "SvExRbfCurveNode" "SvExRbfCurveNode");
      [|congruence].
    now rewrite notin_remove.
  - elim Hout. now left.
Qed.

Lemma curves_follow_objects_witness :
  is_linked (Curve.Curve Samples.curve_node) = true /\
  exists self',
    Curve.process Host.zip_long_repeat3 true Samples.curve_node = Ok self' /\
    exists curves,
      sv_data (Curve.Curve self') = Some curves /\
      Forall2
        (fun (o : list point * socket_item * socket_item) c =>
           let '(vertices, epsilon, smooth) := o in
           Curve.rbf_d (Curve.curve_rbf c) = vertices /\
           Curve.rbf_x (Curve.curve_rbf c)
           = Curve.make_euclidian_ts true vertices /\
           Curve.first_if_list_or_int epsilon
           = Ok (Curve.rbf_epsilon (Curve.curve_rbf c)) /\
           Curve.first_if_list_or_int smooth
           = Ok (Curve.rbf_smooth (Curve.curve_rbf c)) /\
           Curve.rbf_function (Curve.curve_rbf c)
           = Curve.function Samples.curve_node /\
           Curve.rbf_mode (Curve.curve_rbf c) = "N-D")
        (Host.zip_long_repeat3 (Curve.Vertices Samples.curve_node)
           (Curve.Epsilon Samples.curve_node) (Curve.Smooth Samples.curve_node))
        curves.
Proof.
  split; [reflexivity|]. eexists. split; [reflexivity|].
  apply (curves_follow_objects Host.zip_long_repeat3 true Samples.curve_node);
    reflexivity.
Defined.

Lemma curve_process_needs_readable_items_witness :
  is_linked (Curve.Curve Samples.curve_node) = true /\
  Forall
    (fun o : list point * socket_item * socket_item =>
       Curve.readable (snd (fst o)) && Curve.readable (snd o) = true)
    (Host.zip_long_repeat3 (Curve.Vertices Samples.curve_node)
       (Curve.Epsilon Samples.curve_node) (Curve.Smooth Samples.curve_node)).
Proof.
  split; [reflexivity|].
  eapply (curve_process_needs_readable_items Host.zip_long_repeat3 true
            Samples.curve_node); reflexivity.
Defined.

Lemma curve_first_object_unreadable_witness :
  Curve.readable (Int 1) && Curve.readable (Items [0]) = false /\
  Curve.process Host.zip_long_repeat3 true (Samples.curve_node_with [Int 1])
  = Raise TypeError.
Proof.
  split; [reflexivity|].
  apply (curve_first_object_unreadable Host.zip_long_repeat3 true
           (Samples.curve_node_with [Int 1]) Samples.vertices (Int 1)
           (Items [0]) []);
    reflexivity.
Defined.

Lemma curve_process_ignores_earlier_output_witness :
  is_linked (Curve.Curve Samples.curve_node) = true /\
  match Curve.process Host.zip_long_repeat3 false
          (Curve.with_output_data Samples.curve_node None),
        Curve.process Host.zip_long_repeat3 false
          (Curve.with_output_data Samples.curve_node (Some []))
  with
  | Ok after, Ok after' => Curve.Curve after = Curve.Curve after'
  | Raise e, Raise e' => e = e'
  | _, _ => False
  end.
Proof.
  split; [reflexivity|].
  apply (curve_process_ignores_earlier_output Host.zip_long_repeat3 false
           Samples.curve_node None (Some [])).
  reflexivity.
Defined.

Lemma unregister_after_register_witness :
  ~ In "SvExRbfCurveNode" ["SvExAttractorFieldNode"] /\
  bind (Curve.register (Some tt) ["SvExAttractorFieldNode"])
       (Curve.unregister (Some tt))
  = Ok ["SvExAttractorFieldNode"].
Proof.
  assert (H : ~ In "SvExRbfCurveNode" ["SvExAttractorFieldNode"]).
  { simpl. intros [H | []]. discriminate. }
  split; [exact H|].
  apply (unregister_after_register (Some tt) ["SvExAttractorFieldNode"] H).
Defined.
